(** * newt-python: a shallow embedding of [newt/newt.py]

    The module is a thin client of the NEWT REST gateway: a [NEWT] session
    client whose methods each issue one HTTP request through a shared
    [requests.Session], and a [Job] handle that resolves attribute reads
    against a stored mapping.  The code is Python 2 ([file] built-in,
    [class Job:] is an old-style class).

    Python values are modelled as follows.
    - [str] values are [string] (byte strings).
    - Decoded JSON is the inductive [json]; JSON objects are [gmap string json].
      JSON numbers are integers here (floats are not modelled).
    - Exceptions are the inductive [exn]; a computation either returns or
      raises ([result]), and threads the outside world ([world]) explicitly.
    - The [requests] library is modelled by what the code uses of it: a request
      is recorded in the world's log, the reply comes from an arbitrary
      [server] function of the history, and [raise_for_status] raises exactly
      on 4xx and 5xx status codes, as the library does. *)

From stdpp Require Import gmap strings list fin_maps.
From Stdlib Require Import ZArith Ascii String.

Set Warnings "-register-all".
#[local] Open Scope string_scope.
#[local] Open Scope list_scope.

(** ** Python string operations used by the module *)

Module Py.

(** [s.split(c)] for a one-character separator: always a non-empty list. *)
Fixpoint split (c : ascii) (s : string) : list string :=
  match s with
  | EmptyString => [""]
  | String a s' =>
      if decide (a = c) then "" :: split c s'
      else match split c s' with
           | h :: t => String a h :: t
           | [] => [String a ""]
           end
  end.

(** [l[0]] and [l[-1]] on the result of a split (never empty). *)
Definition first_item (l : list string) : string := hd "" l.
Definition last_item (l : list string) : string := List.last l "".

(** [s.rfind(c)]: the highest index of [c] in [s], or [-1]. *)
Fixpoint rfind (c : ascii) (s : string) : Z :=
  match s with
  | EmptyString => (-1)%Z
  | String a s' =>
      let r := rfind c s' in
      if (0 <=? r)%Z then (r + 1)%Z
      else if decide (a = c) then 0%Z else (-1)%Z
  end.

(** The slices [s[:i]] and [s[i:]] for [0 <= i]. *)
Fixpoint take (i : nat) (s : string) : string :=
  match i, s with
  | S i', String a s' => String a (take i' s')
  | _, _ => ""
  end.

Fixpoint drop (i : nat) (s : string) : string :=
  match i, s with
  | S i', String _ s' => drop i' s'
  | _, _ => s
  end.

(** [c * n] *)
Fixpoint replicate (n : nat) (c : ascii) : string :=
  match n with
  | O => ""
  | S n' => String c (replicate n' c)
  end.

(** [s.rstrip(c)] *)
Fixpoint rstrip (c : ascii) (s : string) : string :=
  match s with
  | EmptyString => ""
  | String a s' =>
      let r := rstrip c s' in
      if decide (r = "" ∧ a = c) then "" else String a r
  end.

(** [posixpath.split]:
<<
    i = p.rfind('/') + 1
    head, tail = p[:i], p[i:]
    if head and head != '/'*len(head):
        head = head.rstrip('/')
    return head, tail
>> *)
Definition os_path_split (p : string) : string * string :=
  let i := Z.to_nat (rfind "/" p + 1) in
  let head := take i p in
  let tail := drop i p in
  let head :=
    if decide (head ≠ "" ∧ head ≠ replicate (String.length head) "/")
    then rstrip "/" head else head in
  (head, tail).

(** [c in s] *)
Fixpoint mem (c : ascii) (s : string) : bool :=
  match s with
  | EmptyString => false
  | String a s' => bool_decide (a = c) || mem c s'
  end.

(** [''.join(l)] *)
Definition concat (l : list string) : string := foldr String.append "" l.

(** [c.join(l)] *)
Fixpoint join (c : ascii) (l : list string) : string :=
  match l with
  | [] => ""
  | [s] => s
  | s :: l' => s +:+ String c (join c l')
  end.

(** Truth value of a string ([if s:]). *)
Definition truthy (s : string) : bool := negb (bool_decide (s = "")).

(** Whether [s] begins with the character [c]. *)
Definition starts_with (c : ascii) (s : string) : bool :=
  match s with
  | String a _ => bool_decide (a = c)
  | EmptyString => false
  end.

End Py.

(** ** Decoded JSON, exceptions, results *)

Inductive json : Type :=
  | JNull
  | JBool (b : bool)
  | JNum (z : Z)
  | JStr (s : string)
  | JList (l : list json)
  | JDict (m : gmap string json).

(** Python truth value of a decoded JSON value. *)
Definition json_truthy (v : json) : bool :=
  match v with
  | JNull => false
  | JBool b => b
  | JNum z => negb (z =? 0)%Z
  | JStr s => Py.truthy s
  | JList l => match l with [] => false | _ => true end
  | JDict m => negb (bool_decide (m = ∅))
  end.

(** [v == s] for a caller-supplied string [s]. *)
Definition json_eq_str (v : json) (s : string) : bool :=
  match v with
  | JStr s' => bool_decide (s' = s)
  | _ => false
  end.

Inductive exn : Type :=
  | ValueError (msg : string)
  | KeyError (key : string)
  | AttributeError (name : string)
  | TypeError (msg : string)
  | IndexError
  | IOError (path : string)
  | RuntimeError (msg : string)
  | HTTPError (status : Z)
  | ConnectionError.

Inductive result (A : Type) : Type :=
  | Ret (a : A)
  | Raise (e : exn).
Arguments Ret {A} a.
Arguments Raise {A} e.

(** What a method hands back with [return]: an ordinary value, or an
    exception object that is returned instead of raised. *)
Inductive returned (A : Type) : Type :=
  | Value (a : A)
  | ErrorValue (e : exn).
Arguments Value {A} a.
Arguments ErrorValue {A} e.

(** [v[k]] for a string key [k]. *)
Definition getitem (v : json) (k : string) : result json :=
  match v with
  | JDict m =>
      match m !! k with
      | Some x => Ret x
      | None => Raise (KeyError k)
      end
  | JList _ => Raise (TypeError "list indices must be integers, not str")
  | JStr _ => Raise (TypeError "string indices must be integers, not str")
  | _ => Raise (TypeError "object is not subscriptable")
  end.

(** ** The HTTP session and the local file system *)

Inductive method : Type := GET | POST | DELETE.

(** A Python [file] object open for reading: its name and what [read()]
    returns. *)
Record fileobj : Type := { fo_name : string; fo_content : string }.

Record request : Type := {
  rq_session : nat;
  rq_method : method;
  rq_url : string;
  rq_params : gmap string json;
  rq_data : gmap string json;
  rq_files : gmap string (string * fileobj);
  rq_stream : bool
}.

(** The parts of a [requests.Response] the module reads: the status code, the
    result of [json()] ([None] when the body does not decode), [text], and the
    sequence of chunks [iter_content] yields. *)
Record response : Type := {
  status_code : Z;
  json_body : option json;
  text : string;
  chunks : list string
}.

Inductive reply : Type :=
  | Reply (r : response)
  | NoReply.

(** The world outside the process: the requests issued so far (oldest first),
    the content of local files by path, and the supply of session objects. *)
Record world : Type := {
  log : list request;
  files : gmap string string;
  next_session : nat
}.

Definition M (A : Type) : Type := world → result A * world.

#[global] Instance M_ret : MRet M := λ A a w, (Ret a, w).
#[global] Instance M_bind : MBind M := λ A B f m w,
  match m w with
  | (Ret a, w') => f a w'
  | (Raise e, w') => (Raise e, w')
  end.

Definition raise {A : Type} (e : exn) : M A := λ w, (Raise e, w).

Definition lift {A : Type} (r : result A) : M A := λ w, (r, w).

Definition NEWT_BASE_URL : string := "https://newt.nersc.gov/newt".
Definition NEWT_MACHINES : list string := ["hopper"; "carver"; "edison"].
Definition NEWT_SYSTEMS : list string :=
  ["hopper"; "carver"; "edison"; "pdsf"; "genepool"; "archive"].

(** [Session()] *)
Definition new_session : M nat := λ w,
  (Ret (next_session w),
   {| log := log w; files := files w; next_session := S (next_session w) |}).

(** The status codes [raise_for_status] raises on: client errors (4xx) and
    server errors (5xx). *)
Definition http_error (status : Z) : bool :=
  ((400 <=? status) && (status <? 600))%Z.

(** [resp.raise_for_status()] *)
Definition raise_for_status (resp : response) : M unit :=
  if http_error (status_code resp)
  then raise (HTTPError (status_code resp))
  else mret ().

(** [resp.json()] *)
Definition resp_json (resp : response) : M json :=
  match json_body resp with
  | Some v => mret v
  | None => raise (ValueError "No JSON object could be decoded")
  end.

Section Client.

(** The remote end: the reply to a request, given the requests before it. *)
Variable server : list request → request → reply.

(** Which local paths [open(path, 'wb')] can open. *)
Variable writable : string → bool.

(** One call of [Session.get], [Session.post] or [Session.delete]. *)
Definition send (rq : request) : M response := λ w,
  let w' := {| log := log w ++ [rq]; files := files w;
               next_session := next_session w |} in
  match server (log w) rq with
  | Reply r => (Ret r, w')
  | NoReply => (Raise ConnectionError, w')
  end.

Definition session_get (sid : nat) (url : string)
    (params : gmap string json) (stream : bool) : M response :=
  send {| rq_session := sid; rq_method := GET; rq_url := url;
          rq_params := params; rq_data := ∅; rq_files := ∅;
          rq_stream := stream |}.

Definition session_post (sid : nat) (url : string)
    (data : gmap string json) (fs : gmap string (string * fileobj))
    : M response :=
  send {| rq_session := sid; rq_method := POST; rq_url := url;
          rq_params := ∅; rq_data := data; rq_files := fs;
          rq_stream := false |}.

Definition session_delete (sid : nat) (url : string) : M response :=
  send {| rq_session := sid; rq_method := DELETE; rq_url := url;
          rq_params := ∅; rq_data := ∅; rq_files := ∅;
          rq_stream := false |}.

(** [open(path, 'wb')]: the file is created or truncated. *)
Definition open_wb (path : string) : M unit := λ w,
  if writable path
  then (Ret (), {| log := log w; files := <[path := ""]> (files w);
                   next_session := next_session w |})
  else (Raise (IOError path), w).

(** [f.write(chunk)] on the file opened at [path]. *)
Definition file_write (path chunk : string) : M unit := λ w,
  (Ret (), {| log := log w;
              files := alter (λ old, old +:+ chunk) path (files w);
              next_session := next_session w |}).

(** *** The session client, [class NEWT] *)

Record NEWT : Type := { _session : nat }.

Definition machine_error {A : Type} : returned A :=
  ErrorValue (ValueError "machine value must be specified").

(** The error [login] raises when the server does not vouch for the user. *)
Definition auth_error : exn :=
  ValueError "Could not get authorized connection to NEWT!".

(** [NEWT.login] *)
Definition NEWT_login (self : NEWT) (username password : string) : M json :=
  let url := NEWT_BASE_URL +:+ "/login" in
  resp ← session_post (_session self) url
           (<["username" := JStr username]>
              (<["password" := JStr password]> ∅)) ∅;
  _ ← raise_for_status resp;
  j1 ← resp_json resp;
  auth ← lift (getitem j1 "auth");
  if json_truthy auth then
    j2 ← resp_json resp;
    user ← lift (getitem j2 "username");
    if json_eq_str user username then
      j3 ← resp_json resp;
      lift (getitem j3 "auth")
    else raise auth_error
  else raise auth_error.

(** [NEWT.__init__] *)
Definition NEWT_init (username password : string) : M NEWT :=
  sid ← new_session;
  let self := {| _session := sid |} in
  _ ← NEWT_login self username password;
  mret self.

(** [NEWT.logout] *)
Definition NEWT_logout (self : NEWT) : M bool :=
  let url := NEWT_BASE_URL +:+ "/logout" in
  resp ← session_get (_session self) url ∅ false;
  _ ← raise_for_status resp;
  j ← resp_json resp;
  auth ← lift (getitem j "auth");
  mret (negb (json_truthy auth)).

(** [NEWT.is_auth] (a property: reading it performs the request) *)
Definition NEWT_is_auth (self : NEWT) : M json :=
  let url := NEWT_BASE_URL +:+ "/auth" in
  resp ← session_get (_session self) url ∅ false;
  _ ← raise_for_status resp;
  j ← resp_json resp;
  lift (getitem j "auth").

(** [NEWT.status]; [system] is [None] when the argument is omitted. *)
Definition NEWT_status (self : NEWT) (system : option string) : M json :=
  let url := NEWT_BASE_URL +:+ "/status" in
  resp ← match system with
         | Some sys =>
             if Py.truthy sys
             then session_get (_session self) (url +:+ "/" +:+ sys) ∅ false
             else session_get (_session self) url ∅ false
         | None => session_get (_session self) url ∅ false
         end;
  _ ← raise_for_status resp;
  resp_json resp.

(** [NEWT.motd] *)
Definition NEWT_motd (self : NEWT) : M string :=
  let url := NEWT_BASE_URL +:+ "/status/motd" in
  resp ← session_get (_session self) url ∅ false;
  _ ← raise_for_status resp;
  mret (text resp).

(** [NEWT.list] *)
Definition NEWT_list (self : NEWT) (machine remote_dir : string)
    : M (returned json) :=
  if bool_decide (machine ∉ NEWT_MACHINES) then mret machine_error
  else
    let url := NEWT_BASE_URL +:+ "/file/" +:+ machine +:+ remote_dir in
    resp ← session_get (_session self) url ∅ false;
    _ ← raise_for_status resp;
    j ← resp_json resp;
    mret (Value j).

(** The loop of [NEWT.download]:
<<
    for chunk in resp.iter_content(chunk_size=1024):
        if chunk: # filter out keep-alive new chunks
            f.write(chunk)
>> *)
Fixpoint write_chunks (path : string) (cs : list string) : M unit :=
  match cs with
  | [] => mret ()
  | chunk :: cs' =>
      _ ← (if Py.truthy chunk then file_write path chunk else mret ());
      write_chunks path cs'
  end.

(** [NEWT.download]; [local_path] is [None] when the argument is omitted. *)
Definition NEWT_download (self : NEWT) (machine remote_path : string)
    (local_path : option string) : M (returned string) :=
  if bool_decide (machine ∉ NEWT_MACHINES) then mret machine_error
  else
    let local_path :=
      match local_path with
      | Some p => if Py.truthy p then p
                  else Py.last_item (Py.split "/" remote_path)
      | None => Py.last_item (Py.split "/" remote_path)
      end in
    let url := NEWT_BASE_URL +:+ "/file/" +:+ machine +:+ remote_path in
    resp ← session_get (_session self) url {["view" := JStr "read"]} true;
    _ ← raise_for_status resp;
    _ ← open_wb local_path;
    _ ← write_chunks local_path (chunks resp);
    mret (Value local_path).

(** [NEWT.upload] *)
Definition NEWT_upload (self : NEWT) (machine remote_path : string)
    (file_obj : fileobj) : M (returned bool) :=
  if bool_decide (machine ∉ NEWT_MACHINES) then mret machine_error
  else
    let '(remote_dir, remote_filename) := Py.os_path_split remote_path in
    let fs : gmap string (string * fileobj) :=
      if Py.truthy remote_filename
      then {["file" := (remote_filename, file_obj)]}
      else {["file" := (fo_name file_obj, file_obj)]} in
    let url := NEWT_BASE_URL +:+ "/file/" +:+ machine +:+ remote_dir in
    resp ← session_post (_session self) url ∅ fs;
    _ ← raise_for_status resp;
    mret (Value true).

(** [NEWT.run_command] *)
Definition NEWT_run_command (self : NEWT) (machine command : string)
    (loginenv : bool) : M (returned json) :=
  if bool_decide (machine ∉ NEWT_MACHINES) then mret machine_error
  else
    let url := NEWT_BASE_URL +:+ "/command/" +:+ machine in
    resp ← session_post (_session self) url
             (<["executable" := JStr command]>
                (<["loginenv" := JBool loginenv]> ∅)) ∅;
    _ ← raise_for_status resp;
    j ← resp_json resp;
    mret (Value j).

(** The [jobscript] argument of [queue_submit]: a string, or a [file]. *)
Inductive jobscript : Type :=
  | ScriptText (s : string)
  | ScriptFile (f : fileobj).

(** The first statement of [queue_submit]:
<<
    if isinstance(jobscript, file):
        job = jobscript.read()
    else:
        job = jobscript
>> *)
Definition jobscript_read (script : jobscript) : string :=
  match script with
  | ScriptFile f => fo_content f
  | ScriptText s => s
  end.

(** [NEWT.queue_submit]; [jobfile] is [None] when the argument is omitted. *)
Definition NEWT_queue_submit (self : NEWT) (machine : string)
    (script : jobscript) (jobfile : option string) : M (returned json) :=
  if bool_decide (machine ∉ NEWT_MACHINES) then mret machine_error
  else
    let job := jobscript_read script in
    let data : gmap string json :=
      match jobfile with
      | Some p =>
          if Py.truthy p
          then <["jobscript" := JStr ""]> (<["jobfile" := JStr p]> ∅)
          else <["jobscript" := JStr job]> (<["jobfile" := JStr ""]> ∅)
      | None => <["jobscript" := JStr job]> (<["jobfile" := JStr ""]> ∅)
      end in
    let url := NEWT_BASE_URL +:+ "/queue/" +:+ machine in
    resp ← session_post (_session self) url data ∅;
    _ ← raise_for_status resp;
    j ← resp_json resp;
    mret (Value j).

(** *** The job handle, [class Job]

    [Job] is an old-style class: an instance is its [__dict__] plus the class.
    Reading an attribute looks in the instance [__dict__], then in the class,
    and only then calls [__getattr__]; [__dict__] and [__class__] are the two
    names the instance itself answers. *)

(** What an attribute of a handle can hold: a value that came out of a decoded
    response, the session object, or something defined by the class (its
    methods, [__doc__], [__module__]) or by the instance machinery, kept
    opaque. *)
Inductive attr : Type :=
  | AJson (v : json)
  | ASession (sid : nat)
  | AClass (name : string).

Record Job : Type := { __dict__ : gmap string attr }.

Definition Job_class_attrs : list string :=
  ["__doc__"; "__module__"; "__init__"; "__getattr__"; "update"; "delete"].

(** [Job.__init__(self, session, **kwargs)] *)
Definition Job_init (session : nat) (kwargs : gmap string json) : Job :=
  {| __dict__ := <["_data" := AJson (JDict kwargs)]>
                   (<["_session" := ASession session]> ∅) |}.

(** The call [Job(session, **job_info)]: [job_info] must be a mapping, and a
    key that names a positional parameter of [__init__] is rejected. *)
Definition Job_new (session : nat) (job_info : json) : result Job :=
  match job_info with
  | JDict kwargs =>
      if bool_decide (is_Some (kwargs !! "self") ∨ is_Some (kwargs !! "session"))
      then Raise (TypeError "__init__() got multiple values for keyword argument")
      else Ret (Job_init session kwargs)
  | _ => Raise (TypeError "argument after ** must be a mapping")
  end.

(** Attribute lookup before [__getattr__] is consulted. *)
Definition Job_lookup (self : Job) (name : string) : option attr :=
  if bool_decide (name = "__dict__" ∨ name = "__class__") then Some (AClass name)
  else match __dict__ self !! name with
       | Some v => Some v
       | None =>
           if bool_decide (name ∈ Job_class_attrs) then Some (AClass name)
           else None
       end.

(** [Job.__getattr__]: [return self._data[attr]].  When [_data] itself is not
    found, reading [self._data] re-enters [__getattr__] without end. *)
Definition Job_getattr_hook (self : Job) (name : string) : result attr :=
  match Job_lookup self "_data" with
  | Some (AJson d) =>
      match getitem d name with
      | Ret v => Ret (AJson v)
      | Raise e => Raise e
      end
  | Some _ => Raise (TypeError "object is not subscriptable")
  | None => Raise (RuntimeError "maximum recursion depth exceeded")
  end.

(** [self.name] *)
Definition Job_getattr (self : Job) (name : string) : result attr :=
  match Job_lookup self name with
  | Some v => Ret v
  | None => Job_getattr_hook self name
  end.

(** [setattr(self, name, v)] for a decoded value [v].  An old-style instance
    takes a dictionary for [__dict__] (it becomes the instance dictionary;
    that it stays shared with the payload is not modelled) and only a class
    for [__class__]; every other name is stored in the instance dictionary. *)
Definition Job_setattr (self : Job) (name : string) (v : json) : result Job :=
  if bool_decide (name = "__dict__") then
    match v with
    | JDict m => Ret {| __dict__ := AJson <$> m |}
    | _ => Raise (TypeError "__dict__ must be set to a dictionary")
    end
  else if bool_decide (name = "__class__") then
    Raise (TypeError "__class__ must be set to a class")
  else Ret {| __dict__ := <[name := AJson v]> (__dict__ self) |}.

(** [setattr] over the items of a decoded object, one key after the other. *)
Fixpoint Job_setattrs (self : Job) (items : list (string * json))
    : result Job :=
  match items with
  | [] => Ret self
  | (key, v) :: items' =>
      match Job_setattr self key v with
      | Ret self' => Job_setattrs self' items'
      | Raise e => Raise e
      end
  end.

(** The loop of [Job.update]:
<<
    for key in job_info:
        setattr(self, key, job_info[key])
>>
    A decoded object is traversed key by key; the order in which Python
    visits the keys is unspecified and matters only when one of them is
    [__dict__].  An empty list or string has nothing to traverse; any other
    payload fails at the first step (a list element can at best index the
    list, and is then no attribute name). *)
Definition Job_absorb (self : Job) (job_info : json) : result Job :=
  match job_info with
  | JDict m => Job_setattrs self (map_to_list m)
  | JList [] => Ret self
  | JList (JNum i :: l) =>
      let n := Z.of_nat (S (List.length l)) in
      if bool_decide (- n ≤ i < n)%Z
      then Raise (TypeError "attribute name must be string")
      else Raise IndexError
  | JList (JBool b :: l) =>
      if bool_decide (b = false ∨ l ≠ [])
      then Raise (TypeError "attribute name must be string")
      else Raise IndexError
  | JList (_ :: _) => Raise (TypeError "list indices must be integers")
  | JStr s =>
      if Py.truthy s then Raise (TypeError "string indices must be integers")
      else Ret self
  | _ => Raise (TypeError "object is not iterable")
  end.

(** The per-job endpoint shared by [update] and [delete]:
<<
    jobid = self.jobid.split('.')[0]
    machine = self.hostname
    url = NEWT_BASE_URL + '/queue/' + machine + "/" + jobid
>> *)
Definition Job_url (self : Job) : result string :=
  match Job_getattr self "jobid" with
  | Raise e => Raise e
  | Ret (AJson (JStr jid)) =>
      let jobid := Py.first_item (Py.split "." jid) in
      match Job_getattr self "hostname" with
      | Raise e => Raise e
      | Ret (AJson (JStr machine)) =>
          Ret (NEWT_BASE_URL +:+ "/queue/" +:+ machine +:+ "/" +:+ jobid)
      | Ret _ => Raise (TypeError "cannot concatenate 'str' and object")
      end
  | Ret _ => Raise (AttributeError "split")
  end.

(** [self._session.get(url)] and [self._session.delete(url)]: only a session
    object sends anything; a decoded value in its place has no such method,
    or (a mapping) answers [get] with no response object. *)
Definition Job_session (self : Job) (meth : string) : result nat :=
  match Job_getattr self "_session" with
  | Raise e => Raise e
  | Ret (ASession sid) => Ret sid
  | Ret (AJson (JDict _)) =>
      if bool_decide (meth = "get") then Raise (AttributeError "raise_for_status")
      else Raise (AttributeError meth)
  | Ret _ => Raise (AttributeError meth)
  end.

(** [Job.update]: the result and the handle after the call. *)
Definition Job_update (self : Job) : M (json * Job) :=
  url ← lift (Job_url self);
  sid ← lift (Job_session self "get");
  resp ← session_get sid url ∅ false;
  _ ← raise_for_status resp;
  job_info ← resp_json resp;
  self' ← lift (Job_absorb self job_info);
  mret (job_info, self').

(** [Job.delete] *)
Definition Job_delete (self : Job) : M json :=
  url ← lift (Job_url self);
  sid ← lift (Job_session self "delete");
  resp ← session_delete sid url;
  _ ← raise_for_status resp;
  resp_json resp.

(** The comprehension of [NEWT.queue_stat]:
<<
    [Job(self._session, **job_info) for job_info in resp.json()]
>> *)
Fixpoint Job_news (session : nat) (entries : list json) : result (list Job) :=
  match entries with
  | [] => Ret []
  | job_info :: entries' =>
      match Job_new session job_info with
      | Raise e => Raise e
      | Ret j =>
          match Job_news session entries' with
          | Raise e => Raise e
          | Ret js => Ret (j :: js)
          end
      end
  end.

(** Traversing the decoded payload: a list gives its elements; a mapping gives
    its keys and a string its characters, as strings. *)
Definition json_iter (v : json) : result (list json) :=
  match v with
  | JList l => Ret l
  | JDict m => Ret (JStr <$> (map_to_list m).*1)
  | JStr s => Ret ((λ a, JStr (String a "")) <$> list_ascii_of_string s)
  | _ => Raise (TypeError "object is not iterable")
  end.

(** [NEWT.queue_stat]; [kwargs] are the additional filters. *)
Definition NEWT_queue_stat (self : NEWT) (machine : string) (index limit : Z)
    (kwargs : gmap string json) : M (returned (list Job)) :=
  if bool_decide (machine ∉ NEWT_MACHINES) then mret machine_error
  else
    let url := NEWT_BASE_URL +:+ "/queue/" +:+ machine in
    let params : gmap string json :=
      kwargs ∪ <["index" := JNum index]> (<["limit" := JNum limit]> ∅) in
    resp ← session_get (_session self) url params false;
    _ ← raise_for_status resp;
    j ← resp_json resp;
    entries ← lift (json_iter j);
    jobs ← lift (Job_news (_session self) entries);
    mret (Value jobs).

End Client.

(** ** Concrete worlds and servers, used to run the model *)

Definition empty_world : world :=
  {| log := []; files := ∅; next_session := 0 |}.

Definition json_response (status : Z) (j : json) : response :=
  {| status_code := status; json_body := Some j; text := ""; chunks := [] |}.

Definition stream_response (status : Z) (cs : list string) : response :=
  {| status_code := status; json_body := None; text := ""; chunks := cs |}.

(** A server that answers every request with the same response. *)
Definition always (r : response) : list request → request → reply :=
  λ _ _, Reply r.

Definition all_writable : string → bool := λ _, true.

Definition a_client : NEWT := {| _session := 0 |}.

Definition a_file : fileobj :=
  {| fo_name := "job.pbs"; fo_content := "#PBS -q debug" |}.

(** The job record of the queue listing scenario. *)
Definition job_12345 : gmap string json :=
  <["jobid" := JStr "12345.server"]>
    (<["hostname" := JStr "exampleMachine"]>
       (<["state" := JStr "Running"]> ∅)).

(** A refresh payload that only reports a new state, the handle and the
    world after absorbing it. *)
Definition state_complete : gmap string json :=
  {["state" := JStr "Complete"]}.

Definition job_12345_complete : Job :=
  {| __dict__ := <["state" := AJson (JStr "Complete")]>
                   (__dict__ (Job_init 7 job_12345)) |}.

Definition world_after_update : world :=
  {| log := [ {| rq_session := 7; rq_method := GET;
                 rq_url := "https://newt.nersc.gov/newt/queue/exampleMachine/12345";
                 rq_params := ∅; rq_data := ∅; rq_files := ∅;
                 rq_stream := false |} ];
     files := ∅; next_session := 0 |}.

(** What a login reply carries: the auth flag and the echoed user name. *)
Definition login_body (auth : bool) (user : string) : json :=
  JDict (<["auth" := JBool auth]> (<["username" := JStr user]> ∅)).

(** A queue listing whose one entry has a field named [session]. *)
Definition session_entry : gmap string json :=
  <["jobid" := JStr "9.server"]> (<["session" := JStr "4711"]> ∅).

(** A payload whose only field is named [_data]. *)
Definition data_only : gmap string json := {["_data" := JDict ∅]}.

(** A world with one local file, and the request that downloads over it. *)
Definition world_with_run_sh : world :=
  {| log := []; files := {["run.sh" := "old content"]}; next_session := 1 |}.

Definition download_run_sh : request :=
  {| rq_session := 0; rq_method := GET;
     rq_url := "https://newt.nersc.gov/newt/file/hopper/home/u/run.sh";
     rq_params := {["view" := JStr "read"]}; rq_data := ∅; rq_files := ∅;
     rq_stream := true |}.

(** A payload whose only field is named [_session]. *)
Definition session_only : gmap string json :=
  {["_session" := JStr "expired"]}.

(** A refresh payload that reports another job on another host, and the
    handle after absorbing it. *)
Definition moved_job : gmap string json :=
  <["jobid" := JStr "777.other"]> (<["hostname" := JStr "carver"]> ∅).

Definition job_12345_moved : Job :=
  {| __dict__ := <["jobid" := AJson (JStr "777.other")]>
                   (<["hostname" := AJson (JStr "carver")]>
                      (__dict__ (Job_init 7 job_12345))) |}.

(** ** Auxiliary notions *)

(** A computation that leaves the world alone.  Everything a method does
    after its one request (status check, decoding, field access) is of this
    kind; only [send], [open_wb] and [file_write] change the world. *)
Definition stateless {A : Type} (m : M A) : Prop := ∀ w, (m w).2 = w.

(** The fields of a decoded payload: its entries when it is an object. *)
Definition json_fields (v : json) : gmap string json :=
  match v with
  | JDict m => m
  | _ => ∅
  end.

(** A computation that adds nothing to the request log. *)
Definition keeps_log {A : Type} (m : M A) : Prop := ∀ w, log (m w).2 = log w.

(** The world after one more request. *)
Definition logged (rq : request) (w : world) : world :=
  {| log := log w ++ [rq]; files := files w; next_session := next_session w |}.

(** A call sends exactly one request, through the session [sid]. *)
Definition sends_one {A : Type} (sid : nat) (m : M A) : Prop :=
  ∀ w, ∃ rq, log (m w).2 = log w ++ [rq] ∧ rq_session rq = sid.

(** A call whose request gets no reply, or a reply with an error status,
    raises the transport error and does nothing beyond having sent it. *)
Definition transport_checked {A : Type}
    (server : list request → request → reply) (m : M A) : Prop :=
  ∀ w rq,
    log (m w).2 = log w ++ [rq] →
    match server (log w) rq with
    | NoReply => m w = (Raise ConnectionError, logged rq w)
    | Reply resp =>
        http_error (status_code resp) = true →
        m w = (Raise (HTTPError (status_code resp)), logged rq w)
    end.

(** A call that needs the decoded body: when the reply is no error but its
    body does not decode, the call raises the decoding error and does nothing
    beyond having sent its request. *)
Definition decoding_checked {A : Type}
    (server : list request → request → reply) (m : M A) : Prop :=
  ∀ w rq resp,
    log (m w).2 = log w ++ [rq] →
    server (log w) rq = Reply resp →
    http_error (status_code resp) = false →
    json_body resp = None →
    m w = (Raise (ValueError "No JSON object could be decoded"), logged rq w).

(** An entry of a queue listing from which a handle can be built. *)
Definition Job_entry_ok (entry : json) : Prop :=
  ∃ m, entry = JDict m ∧ m !! "self" = None ∧ m !! "session" = None.

(** A call that hands back the decoded body of a reply that is no error,
    wrapped by [wrap], whatever the body is. *)
Definition passes_body {A : Type}
    (server : list request → request → reply) (m : M A) (wrap : json → A)
    : Prop :=
  ∀ w rq resp j,
    log (m w).2 = log w ++ [rq] →
    server (log w) rq = Reply resp →
    http_error (status_code resp) = false →
    json_body resp = Some j →
    m w = (Ret (wrap j), logged rq w).

(** ** Machine validation *)

Lemma invalid_machine_guard (machine : string) :
  machine ∉ NEWT_MACHINES → bool_decide (machine ∉ NEWT_MACHINES) = true.
Proof. intros H. by apply bool_decide_eq_true_2. Qed.

Lemma valid_machine_guard (machine : string) :
  machine ∈ NEWT_MACHINES → bool_decide (machine ∉ NEWT_MACHINES) = false.
Proof. intros H. apply bool_decide_eq_false_2. by intros Hn. Qed.

(** C1: for a machine outside [NEWT_MACHINES], each of [list], [download],
    [upload], [run_command], [queue_stat] and [queue_submit] returns (does not
    raise) the constructed [ValueError], and leaves the world as it was: no
    request is added to the log. *)
Theorem invalid_machine_returns_error
    (server : list request → request → reply) (writable : string → bool)
    (self : NEWT) (machine path command : string) (local_path : option string)
    (file_obj : fileobj) (loginenv : bool) (index limit : Z)
    (kwargs : gmap string json) (script : jobscript) (jobfile : option string)
    (w : world) :
  machine ∉ NEWT_MACHINES →
  NEWT_list server self machine path w
    = (Ret (ErrorValue (ValueError "machine value must be specified")), w)
  ∧ NEWT_download server writable self machine path local_path w
    = (Ret (ErrorValue (ValueError "machine value must be specified")), w)
  ∧ NEWT_upload server self machine path file_obj w
    = (Ret (ErrorValue (ValueError "machine value must be specified")), w)
  ∧ NEWT_run_command server self machine command loginenv w
    = (Ret (ErrorValue (ValueError "machine value must be specified")), w)
  ∧ NEWT_queue_stat server self machine index limit kwargs w
    = (Ret (ErrorValue (ValueError "machine value must be specified")), w)
  ∧ NEWT_queue_submit server self machine script jobfile w
    = (Ret (ErrorValue (ValueError "machine value must be specified")), w).
Proof.
  intros Hm.
  unfold NEWT_list, NEWT_download, NEWT_upload, NEWT_run_command,
    NEWT_queue_stat, NEWT_queue_submit.
  rewrite (invalid_machine_guard _ Hm).
  repeat split.
Qed.

Lemma invalid_machine_returns_error_witness :
  ("pdsf" ∉ NEWT_MACHINES)
  ∧ NEWT_list (always (json_response 200 JNull)) a_client "pdsf" "/tmp"
      empty_world
    = (Ret (ErrorValue (ValueError "machine value must be specified")),
       empty_world).
Proof.
  assert (H : "pdsf" ∉ NEWT_MACHINES) by compute_done.
  split; [exact H|].
  exact (proj1 (invalid_machine_returns_error
                  (always (json_response 200 JNull)) all_writable a_client
                  "pdsf" "/tmp" "ls" None a_file true 0 10 ∅
                  (ScriptText "") None empty_world H)).
Defined.

(** ** Computations that leave the world alone *)

Lemma stateless_ret {A : Type} (a : A) : stateless (mret a).
Proof. by intros w. Qed.

Lemma stateless_raise {A : Type} (e : exn) : stateless (@raise A e).
Proof. by intros w. Qed.

Lemma stateless_lift {A : Type} (r : result A) : stateless (lift r).
Proof. by intros w. Qed.

Lemma stateless_bind {A B : Type} (m : M A) (k : A → M B) :
  stateless m → (∀ a, stateless (k a)) → stateless (m ≫= k).
Proof.
  intros Hm Hk w. unfold mbind, M_bind.
  specialize (Hm w). destruct (m w) as [[a|e] w']; simpl in *; subst.
  - apply Hk.
  - done.
Qed.

Lemma stateless_raise_for_status (resp : response) :
  stateless (raise_for_status resp).
Proof. intros w. unfold raise_for_status. by case_match. Qed.

Lemma stateless_resp_json (resp : response) : stateless (resp_json resp).
Proof. intros w. unfold resp_json. by case_match. Qed.

Create HintDb stateless.
#[global] Hint Resolve stateless_ret stateless_raise stateless_lift
  stateless_raise_for_status stateless_resp_json : stateless.
#[global] Hint Extern 2 (stateless (_ ≫= _)) =>
  apply stateless_bind; [|intros ?] : stateless.
#[global] Hint Extern 3 (stateless (if ?b then _ else _)) =>
  destruct b : stateless.

(** A method that sends one request and then only inspects the response has
    added exactly that request to the log, whatever the reply was. *)
Lemma send_then_log {A : Type} (server : list request → request → reply)
    (rq : request) (k : response → M A) (w : world) :
  (∀ resp, stateless (k resp)) →
  log ((send server rq ≫= k) w).2 = log w ++ [rq]
  ∧ files ((send server rq ≫= k) w).2 = files w.
Proof.
  intros Hk. unfold mbind, M_bind, send.
  destruct (server (log w) rq) as [resp|]; simpl; [|done].
  by rewrite Hk.
Qed.

(** ** Job submission *)

(** C3: on a valid machine, a non-empty [jobfile] makes [queue_submit] POST
    form data that carries the job file and an empty [jobscript], whatever
    script was supplied; with [jobfile] omitted the form data carries the
    script supplied (the very string given inline, or the content the given
    file object reads) and an empty [jobfile]. *)
Theorem queue_submit_form_data
    (server : list request → request → reply) (self : NEWT)
    (machine : string) (script : jobscript) (w : world) :
  machine ∈ NEWT_MACHINES →
  (∀ jobfile : string, jobfile ≠ "" →
     log (NEWT_queue_submit server self machine script (Some jobfile) w).2
     = log w ++
       [ {| rq_session := _session self; rq_method := POST;
            rq_url := NEWT_BASE_URL +:+ "/queue/" +:+ machine;
            rq_params := ∅;
            rq_data := <["jobscript" := JStr ""]>
                         (<["jobfile" := JStr jobfile]> ∅);
            rq_files := ∅; rq_stream := false |} ])
  ∧ (∀ inline : string,
       log (NEWT_queue_submit server self machine (ScriptText inline)
              None w).2
       = log w ++
         [ {| rq_session := _session self; rq_method := POST;
              rq_url := NEWT_BASE_URL +:+ "/queue/" +:+ machine;
              rq_params := ∅;
              rq_data := <["jobscript" := JStr inline]>
                           (<["jobfile" := JStr ""]> ∅);
              rq_files := ∅; rq_stream := false |} ])
  ∧ (∀ name content : string,
       log (NEWT_queue_submit server self machine
              (ScriptFile {| fo_name := name; fo_content := content |})
              None w).2
       = log w ++
         [ {| rq_session := _session self; rq_method := POST;
              rq_url := NEWT_BASE_URL +:+ "/queue/" +:+ machine;
              rq_params := ∅;
              rq_data := <["jobscript" := JStr content]>
                           (<["jobfile" := JStr ""]> ∅);
              rq_files := ∅; rq_stream := false |} ]).
Proof.
  intros Hm. unfold NEWT_queue_submit.
  rewrite (valid_machine_guard _ Hm). split; [|split].
  - intros jobfile Hne.
    assert (Py.truthy jobfile = true) as ->.
    { unfold Py.truthy. by rewrite bool_decide_eq_false_2. }
    apply send_then_log. intros resp. auto 10 with stateless.
  - intros inline. simpl.
    apply send_then_log. intros resp. auto 10 with stateless.
  - intros name content. simpl.
    apply send_then_log. intros resp. auto 10 with stateless.
Qed.

Lemma queue_submit_form_data_witness :
  ("hopper" ∈ NEWT_MACHINES)
  ∧ log (NEWT_queue_submit (always (json_response 200 JNull)) a_client
           "hopper" (ScriptText "echo hi") (Some "/home/u/job.pbs")
           empty_world).2
    = [ {| rq_session := 0; rq_method := POST;
           rq_url := "https://newt.nersc.gov/newt/queue/hopper";
           rq_params := ∅;
           rq_data := <["jobscript" := JStr ""]>
                        (<["jobfile" := JStr "/home/u/job.pbs"]> ∅);
           rq_files := ∅; rq_stream := false |} ]
  ∧ log (NEWT_queue_submit (always (json_response 200 JNull)) a_client
           "hopper" (ScriptText "echo hi") None empty_world).2
    = [ {| rq_session := 0; rq_method := POST;
           rq_url := "https://newt.nersc.gov/newt/queue/hopper";
           rq_params := ∅;
           rq_data := <["jobscript" := JStr "echo hi"]>
                        (<["jobfile" := JStr ""]> ∅);
           rq_files := ∅; rq_stream := false |} ]
  ∧ log (NEWT_queue_submit (always (json_response 200 JNull)) a_client
           "hopper" (ScriptFile a_file) None empty_world).2
    = [ {| rq_session := 0; rq_method := POST;
           rq_url := "https://newt.nersc.gov/newt/queue/hopper";
           rq_params := ∅;
           rq_data := <["jobscript" := JStr "#PBS -q debug"]>
                        (<["jobfile" := JStr ""]> ∅);
           rq_files := ∅; rq_stream := false |} ].
Proof.
  assert (H : "hopper" ∈ NEWT_MACHINES) by compute_done.
  split; [exact H|]. split; [|split].
  - refine (proj1 (queue_submit_form_data (always (json_response 200 JNull))
                     a_client "hopper" (ScriptText "echo hi") empty_world H)
              "/home/u/job.pbs" _).
    discriminate.
  - exact (proj1 (proj2 (queue_submit_form_data
                     (always (json_response 200 JNull)) a_client "hopper"
                     (ScriptText "echo hi") empty_world H)) "echo hi").
  - exact (proj2 (proj2 (queue_submit_form_data
                     (always (json_response 200 JNull)) a_client "hopper"
                     (ScriptText "echo hi") empty_world H))
             "job.pbs" "#PBS -q debug").
Defined.

(** ** Reading fields of a job handle *)

Lemma Job_lookup_None (self : Job) (name : string) :
  Job_lookup self name = None →
  __dict__ self !! name = None ∧ (name ∉ Job_class_attrs)
  ∧ name ≠ "__dict__" ∧ name ≠ "__class__".
Proof.
  unfold Job_lookup. intros H.
  case_bool_decide as Hs; [done|].
  destruct (__dict__ self !! name); [done|].
  case_bool_decide; [done|]. naive_solver.
Qed.

Lemma Job_lookup_instance (self : Job) (name : string) (a : attr) :
  name ≠ "__dict__" → name ≠ "__class__" →
  __dict__ self !! name = Some a → Job_lookup self name = Some a.
Proof.
  intros H1 H2 H. unfold Job_lookup.
  rewrite bool_decide_eq_false_2; [by rewrite H|].
  by intros [?|?].
Qed.

(** A handle as [queue_stat] builds it reads a stored field from the stored
    mapping, unless the name is taken by the instance or the class. *)
Lemma Job_init_getattr (session : nat) (kwargs : gmap string json)
    (name : string) (v : json) :
  kwargs !! name = Some v →
  Job_lookup (Job_init session kwargs) name = None →
  Job_getattr (Job_init session kwargs) name = Ret (AJson v).
Proof.
  intros Hk Hl. unfold Job_getattr. rewrite Hl.
  unfold Job_getattr_hook.
  rewrite (Job_lookup_instance _ "_data" (AJson (JDict kwargs)));
    [|done|done|apply lookup_insert_eq].
  simpl. by rewrite Hk.
Qed.

(** C2, as the code has it: when a name is found neither on the instance nor
    in the class, and the stored mapping has no such key, reading it raises
    the mapping's own [KeyError] for that key. *)
Theorem Job_getattr_missing (self : Job) (d : gmap string json)
    (name : string) :
  __dict__ self !! "_data" = Some (AJson (JDict d)) →
  Job_lookup self name = None →
  d !! name = None →
  Job_getattr self name = Raise (KeyError name).
Proof.
  intros Hd Hl Hn. unfold Job_getattr. rewrite Hl.
  unfold Job_getattr_hook.
  rewrite (Job_lookup_instance self "_data" _ ltac:(done) ltac:(done) Hd).
  simpl. by rewrite Hn.
Qed.

Lemma Job_getattr_missing_witness :
  Job_getattr (Job_init 0 job_12345) "walltime" = Raise (KeyError "walltime").
Proof.
  apply (Job_getattr_missing (Job_init 0 job_12345) job_12345 "walltime");
    reflexivity.
Defined.

(** C2 as stated fails: on a handle whose stored mapping is empty, reading
    [state] is not answered by the instance or the class, and what is raised
    is no [AttributeError]. *)
Lemma Job_getattr_missing_not_AttributeError :
  __dict__ (Job_init 0 ∅) !! "_data" = Some (AJson (JDict ∅))
  ∧ Job_lookup (Job_init 0 ∅) "state" = None
  ∧ (∅ : gmap string json) !! "state" = None
  ∧ ∀ msg, Job_getattr (Job_init 0 ∅) "state" ≠ Raise (AttributeError msg).
Proof. repeat split. intros msg. discriminate. Qed.

(** ** Facts about the string operations *)

Lemma append_cons (a : ascii) (s t : string) :
  String a s +:+ t = String a (s +:+ t).
Proof. reflexivity. Qed.

Lemma append_nil_r (s : string) : s +:+ "" = s.
Proof.
  induction s as [|a s IH]; [done|]. rewrite append_cons. by rewrite IH.
Qed.

Lemma append_assoc (s t u : string) : s +:+ (t +:+ u) = (s +:+ t) +:+ u.
Proof.
  induction s as [|a s IH]; [done|].
  rewrite !append_cons. by rewrite IH.
Qed.

Lemma split_nonempty (c : ascii) (s : string) : Py.split c s ≠ [].
Proof.
  destruct s as [|a s]; simpl; [done|].
  case_decide; [done|]. by destruct (Py.split c s).
Qed.

(** Splitting loses nothing: joining the pieces gives the string back. *)
Lemma join_split (c : ascii) (s : string) : Py.join c (Py.split c s) = s.
Proof.
  induction s as [|a s IH]; simpl; [done|].
  case_decide as Ha.
  - subst a. pose proof (split_nonempty c s) as Hne.
    destruct (Py.split c s) as [|h t]; [done|].
    simpl in *. by rewrite <- IH.
  - destruct (Py.split c s) as [|h t] eqn:E.
    + by destruct (split_nonempty c s).
    + simpl in *. destruct t; simpl in *; by rewrite <- IH.
Qed.

(** No piece contains the separator. *)
Lemma split_pieces (c : ascii) (s : string) :
  Forall (λ p, Py.mem c p = false) (Py.split c s).
Proof.
  induction s as [|a s IH]; simpl.
  - by constructor.
  - case_decide as Ha.
    + by constructor.
    + destruct (Py.split c s) as [|h t]; inversion IH; subst;
        constructor; simpl; try done.
      * by rewrite bool_decide_eq_false_2.
      * by rewrite bool_decide_eq_false_2.
Qed.

(** [s.split(c)[0]] is the part of [s] before the first [c]. *)
Lemma split_first_item (c : ascii) (s : string) :
  Py.mem c (Py.first_item (Py.split c s)) = false
  ∧ (s = Py.first_item (Py.split c s)
     ∨ ∃ rest, s = Py.first_item (Py.split c s) +:+ String c rest).
Proof.
  pose proof (join_split c s) as Hj.
  pose proof (split_pieces c s) as Hp.
  destruct (Py.split c s) as [|p t] eqn:E; [by destruct (split_nonempty c s)|].
  inversion Hp; subst. simpl. split; [done|].
  destruct t as [|q t]; [by left|]. right. by eexists.
Qed.

Lemma join_snoc (c : ascii) (l : list string) (q : string) :
  l ≠ [] → Py.join c (l ++ [q]) = Py.join c l +:+ String c q.
Proof.
  induction l as [|p l IH]; [done|]. intros _.
  destruct l as [|p' l]; [done|].
  change (Py.join c ((p :: p' :: l) ++ [q]))
    with (p +:+ String c (Py.join c ((p' :: l) ++ [q]))).
  rewrite IH by done.
  change (Py.join c (p :: p' :: l))
    with (p +:+ String c (Py.join c (p' :: l))).
  by rewrite <- append_assoc.
Qed.

(** [s.split(c)[-1]] is the part of [s] after the last [c]. *)
Lemma split_last_item (c : ascii) (s : string) :
  Py.mem c (Py.last_item (Py.split c s)) = false
  ∧ (s = Py.last_item (Py.split c s)
     ∨ ∃ before, s = before +:+ String c (Py.last_item (Py.split c s))).
Proof.
  pose proof (join_split c s) as Hj.
  pose proof (split_pieces c s) as Hp.
  pose proof (split_nonempty c s) as Hne.
  destruct (Py.split c s) as [|p t] using rev_ind; [done|]. clear IHt.
  unfold Py.last_item. rewrite last_last.
  apply Forall_app in Hp as [_ Hp]. inversion Hp; subst.
  split; [done|].
  destruct t as [|p' t]; [by left|]. right.
  rewrite join_snoc by done. by eexists.
Qed.

(** ** The per-job endpoint *)

Lemma Job_url_fields (self : Job) (jid h : string) :
  Job_getattr self "jobid" = Ret (AJson (JStr jid)) →
  Job_getattr self "hostname" = Ret (AJson (JStr h)) →
  Job_url self
  = Ret (NEWT_BASE_URL +:+ "/queue/" +:+ h +:+ "/"
         +:+ Py.first_item (Py.split "." jid)).
Proof. intros Hj Hh. unfold Job_url. by rewrite Hj, Hh. Qed.

(** C4: a handle whose [jobid] and [hostname] fields read as the strings
    [jid] and [h] (for a handle that has not been refreshed these are the
    entries of its stored mapping) sends, on [update], one GET through its
    session to the base URL followed by [/queue/], [h], [/] and the part of
    [jid] before its first dot: that part has no dot in it, and [jid] is
    either that part alone or that part, a dot, and a suffix. *)
Theorem Job_update_request
    (server : list request → request → reply) (self : Job) (w : world)
    (jid h : string) (sid : nat) :
  Job_getattr self "jobid" = Ret (AJson (JStr jid)) →
  Job_getattr self "hostname" = Ret (AJson (JStr h)) →
  Job_getattr self "_session" = Ret (ASession sid) →
  log (Job_update server self w).2
  = log w ++
    [ {| rq_session := sid; rq_method := GET;
         rq_url := NEWT_BASE_URL +:+ "/queue/" +:+ h +:+ "/"
                   +:+ Py.first_item (Py.split "." jid);
         rq_params := ∅; rq_data := ∅; rq_files := ∅; rq_stream := false |} ]
  ∧ Py.mem "." (Py.first_item (Py.split "." jid)) = false
  ∧ (jid = Py.first_item (Py.split "." jid)
     ∨ ∃ suffix, jid = Py.first_item (Py.split "." jid) +:+ String "." suffix).
Proof.
  intros Hj Hh Hs. split; [|apply split_first_item].
  unfold Job_update. rewrite (Job_url_fields self jid h Hj Hh).
  unfold Job_session. rewrite Hs.
  apply (send_then_log server). intros resp. auto 10 with stateless.
Qed.

Lemma Job_update_request_witness :
  Job_getattr (Job_init 7 job_12345) "jobid" = Ret (AJson (JStr "12345.server"))
  ∧ Job_getattr (Job_init 7 job_12345) "hostname"
    = Ret (AJson (JStr "exampleMachine"))
  ∧ Job_getattr (Job_init 7 job_12345) "_session" = Ret (ASession 7)
  ∧ log (Job_update (always (json_response 200 (JDict ∅)))
           (Job_init 7 job_12345) empty_world).2
    = [ {| rq_session := 7; rq_method := GET;
           rq_url := "https://newt.nersc.gov/newt/queue/exampleMachine/12345";
           rq_params := ∅; rq_data := ∅; rq_files := ∅;
           rq_stream := false |} ].
Proof.
  assert (H1 : Job_getattr (Job_init 7 job_12345) "jobid"
               = Ret (AJson (JStr "12345.server"))) by reflexivity.
  assert (H2 : Job_getattr (Job_init 7 job_12345) "hostname"
               = Ret (AJson (JStr "exampleMachine"))) by reflexivity.
  assert (H3 : Job_getattr (Job_init 7 job_12345) "_session"
               = Ret (ASession 7)) by reflexivity.
  split; [exact H1|]. split; [exact H2|]. split; [exact H3|].
  exact (proj1 (Job_update_request (always (json_response 200 (JDict ∅)))
                  (Job_init 7 job_12345) empty_world
                  "12345.server" "exampleMachine" 7 H1 H2 H3)).
Defined.

(** ** Refreshing a handle *)

(** What a successful [update] went through. *)
Lemma Job_update_Ret (server : list request → request → reply)
    (self self' : Job) (w w' : world) (payload : json) :
  Job_update server self w = (Ret (payload, self'), w') →
  ∃ url sid resp,
    Job_url self = Ret url
    ∧ Job_session self "get" = Ret sid
    ∧ server (log w)
        {| rq_session := sid; rq_method := GET; rq_url := url;
           rq_params := ∅; rq_data := ∅; rq_files := ∅; rq_stream := false |}
      = Reply resp
    ∧ json_body resp = Some payload
    ∧ Job_absorb self payload = Ret self'
    ∧ log w' = log w ++
        [ {| rq_session := sid; rq_method := GET; rq_url := url;
             rq_params := ∅; rq_data := ∅; rq_files := ∅;
             rq_stream := false |} ].
Proof.
  unfold Job_update, mbind, M_bind, lift, session_get, send,
    raise_for_status, resp_json, mret, M_ret, raise.
  intros H.
  destruct (Job_url self) as [url|]; [|done].
  destruct (Job_session self "get") as [sid|]; [|done].
  destruct (server (log w) _) as [resp|] eqn:Hsrv; [|done].
  destruct (http_error (status_code resp)); [done|].
  destruct (json_body resp) as [job_info|] eqn:Hj; [|done].
  destruct (Job_absorb self job_info) as [j|] eqn:Ha; [|done].
  inversion H; subst; clear H. by exists url, sid, resp.
Qed.

(** A run of [setattr] calls that does not replace the instance dictionary
    inserts the items one after the other; none of them names [__class__]. *)
Lemma Job_setattrs_Ret (items : list (string * json)) (self self' : Job) :
  Job_setattrs self items = Ret self' →
  (∀ v, ("__dict__", v) ∉ items) →
  __dict__ self'
  = foldl (λ d kv, <[kv.1 := AJson kv.2]> d) (__dict__ self) items
  ∧ ∀ v, ("__class__", v) ∉ items.
Proof.
  revert self. induction items as [|[k v] items IH]; intros self H Hd.
  - simpl in H. simplify_eq. split; [done|]. intros v. apply not_elem_of_nil.
  - simpl in H. unfold Job_setattr in H.
    case_bool_decide as Hk1.
    { subst k. destruct (Hd v). apply elem_of_cons. by left. }
    case_bool_decide as Hk2; [done|].
    apply IH in H as [H1 H2].
    + split; [by rewrite H1|]. intros v' [?|?]%elem_of_cons.
      * by simplify_eq.
      * by eapply H2.
    + intros v' Hin. eapply Hd. apply elem_of_cons. by right.
Qed.

Lemma foldl_insert_lookup (items : list (string * json))
    (d : gmap string attr) (k : string) :
  NoDup items.*1 →
  foldl (λ d kv, <[kv.1 := AJson kv.2]> d) d items !! k
  = match (list_to_map items : gmap string json) !! k with
    | Some v => Some (AJson v)
    | None => d !! k
    end.
Proof.
  revert d. induction items as [|[k' v'] items IH]; intros d Hnd; [done|].
  simpl in *. apply NoDup_cons in Hnd as [Hk' Hnd].
  rewrite IH by done. destruct (decide (k' = k)) as [->|Hne].
  - rewrite lookup_insert_eq.
    rewrite (not_elem_of_list_to_map_1 _ k Hk'). by rewrite lookup_insert_eq.
  - by rewrite !lookup_insert_ne.
Qed.

(** The instance dictionary after absorbing an object without a [__dict__]
    entry: the object's entries laid over the old dictionary. *)
Lemma Job_absorb_dict (self self' : Job) (m : gmap string json) :
  Job_absorb self (JDict m) = Ret self' →
  m !! "__dict__" = None →
  m !! "__class__" = None
  ∧ ∀ k, __dict__ self' !! k
         = match m !! k with
           | Some v => Some (AJson v)
           | None => __dict__ self !! k
           end.
Proof.
  simpl. intros H Hd.
  apply Job_setattrs_Ret in H as [H1 H2].
  - split.
    + destruct (m !! "__class__") as [v|] eqn:E; [|done].
      destruct (H2 v). by apply elem_of_map_to_list.
    + intros k. rewrite H1, foldl_insert_lookup.
      * by rewrite list_to_map_to_list.
      * apply NoDup_fst_map_to_list.
  - intros v Hin%elem_of_map_to_list. congruence.
Qed.

(** Without [__dict__] and [__class__] among the keys, every [setattr]
    succeeds. *)
Lemma Job_setattrs_total (items : list (string * json)) (self : Job) :
  (∀ v, ("__dict__", v) ∉ items) → (∀ v, ("__class__", v) ∉ items) →
  ∃ self', Job_setattrs self items = Ret self'.
Proof.
  revert self. induction items as [|[k v] items IH]; intros self Hd Hc.
  - by eexists.
  - simpl. unfold Job_setattr.
    rewrite bool_decide_eq_false_2.
    2:{ intros ->. apply (Hd v). apply elem_of_cons. by left. }
    rewrite bool_decide_eq_false_2.
    2:{ intros ->. apply (Hc v). apply elem_of_cons. by left. }
    apply IH.
    + intros v' Hin. apply (Hd v'). apply elem_of_cons. by right.
    + intros v' Hin. apply (Hc v'). apply elem_of_cons. by right.
Qed.

(** [update] succeeds whenever the handle has its endpoint and session, the
    reply is not an error, and the body decodes to an object that names
    neither [__dict__] nor [__class__]. *)
Lemma Job_update_total (server : list request → request → reply)
    (self : Job) (w : world) (url : string) (sid : nat) (resp : response)
    (m : gmap string json) :
  Job_url self = Ret url →
  Job_session self "get" = Ret sid →
  server (log w)
    {| rq_session := sid; rq_method := GET; rq_url := url;
       rq_params := ∅; rq_data := ∅; rq_files := ∅; rq_stream := false |}
  = Reply resp →
  http_error (status_code resp) = false →
  json_body resp = Some (JDict m) →
  m !! "__dict__" = None → m !! "__class__" = None →
  ∃ self' w', Job_update server self w = (Ret (JDict m, self'), w').
Proof.
  intros Hu Hs Hsrv Hst Hj Hd Hc.
  destruct (Job_setattrs_total (map_to_list m) self) as [self' Hself'].
  - intros v Hin%elem_of_map_to_list. congruence.
  - intros v Hin%elem_of_map_to_list. congruence.
  - unfold Job_update, mbind, M_bind, lift, session_get, send.
    rewrite Hu, Hs, Hsrv. unfold raise_for_status. rewrite Hst. simpl.
    unfold resp_json. rewrite Hj. simpl. rewrite Hself'. by eexists _, _.
Qed.

(** Only an object, the empty list and the empty string are absorbed. *)
Lemma Job_absorb_Ret (self self' : Job) (payload : json) :
  Job_absorb self payload = Ret self' →
  (∃ m, payload = JDict m) ∨ (json_fields payload = ∅ ∧ self' = self).
Proof.
  destruct payload as [| | |s|l|m]; simpl; try done.
  - destruct (Py.truthy s); [done|]. intros ?; simplify_eq. by right.
  - destruct l as [|x l]; [intros ?; simplify_eq; by right|].
    destruct x; try done; by case_bool_decide.
  - intros _. left. by eexists.
Qed.

(** Reading a name depends only on the instance's entry for that name and
    its entry for [_data]. *)
Lemma Job_getattr_ext (self self' : Job) (name : string) :
  __dict__ self' !! name = __dict__ self !! name →
  __dict__ self' !! "_data" = __dict__ self !! "_data" →
  Job_getattr self' name = Job_getattr self name.
Proof.
  intros Hn Hd. unfold Job_getattr, Job_getattr_hook, Job_lookup.
  by rewrite Hn, Hd.
Qed.

(** C5, as the code has it: after a successful [update] whose payload has no
    field named [_data] or [__dict__], the call has returned the decoded body
    of the reply to its request, every field of the payload reads as the new
    value, and every name that is not a field of the payload reads exactly as
    it did before the call. *)
Theorem Job_update_overlay (server : list request → request → reply)
    (self self' : Job) (w w' : world) (payload : json) :
  Job_update server self w = (Ret (payload, self'), w') →
  json_fields payload !! "_data" = None →
  json_fields payload !! "__dict__" = None →
  (∃ rq resp, log w' = log w ++ [rq]
              ∧ server (log w) rq = Reply resp
              ∧ json_body resp = Some payload)
  ∧ (∀ k v, json_fields payload !! k = Some v →
            Job_getattr self' k = Ret (AJson v))
  ∧ (∀ k, json_fields payload !! k = None →
          Job_getattr self' k = Job_getattr self k).
Proof.
  intros H Hdata Hdict.
  apply Job_update_Ret in H as (url & sid & resp & _ & _ & Hsrv & Hj & Ha & Hl).
  split; [by eauto|].
  destruct (Job_absorb_Ret _ _ _ Ha) as [[m ->]|[Hf ->]].
  - simpl in *. apply Job_absorb_dict in Ha as [Hclass Hd]; [|done]. split.
    + intros k v Hk. unfold Job_getattr.
      rewrite (Job_lookup_instance self' k (AJson v)); [done|..].
      * intros ->. congruence.
      * intros ->. congruence.
      * by rewrite Hd, Hk.
    + intros k Hk. apply Job_getattr_ext.
      * by rewrite Hd, Hk.
      * by rewrite Hd, Hdata.
  - rewrite Hf. split; [|done]. intros k v Hk. by rewrite lookup_empty in Hk.
Qed.

Lemma Job_update_overlay_witness :
  Job_update (always (json_response 200 (JDict state_complete)))
    (Job_init 7 job_12345) empty_world
  = (Ret (JDict state_complete, job_12345_complete), world_after_update)
  ∧ json_fields (JDict state_complete) !! "_data" = None
  ∧ json_fields (JDict state_complete) !! "__dict__" = None
  ∧ Job_getattr job_12345_complete "state" = Ret (AJson (JStr "Complete"))
  ∧ Job_getattr job_12345_complete "hostname"
    = Job_getattr (Job_init 7 job_12345) "hostname".
Proof.
  assert (H : Job_update (always (json_response 200 (JDict state_complete)))
                (Job_init 7 job_12345) empty_world
              = (Ret (JDict state_complete, job_12345_complete),
                 world_after_update)) by (vm_compute; reflexivity).
  split; [exact H|]. split; [reflexivity|]. split; [reflexivity|].
  pose proof (Job_update_overlay _ _ _ _ _ _ H eq_refl eq_refl)
    as (_ & Hnew & Hold).
  split.
  - apply Hnew. reflexivity.
  - apply Hold. reflexivity.
Defined.

(** C5 as stated fails: a payload whose only field is [_data] replaces the
    stored mapping, so [state], which the payload does not mention and which
    read as ["Running"] before, is no longer found after the call. *)
Lemma Job_update_drops_stored_fields :
  Job_update (always (json_response 200 (JDict data_only)))
    (Job_init 7 job_12345) empty_world
  = (Ret (JDict data_only,
          {| __dict__ := <["_data" := AJson (JDict ∅)]>
                           (__dict__ (Job_init 7 job_12345)) |}),
     world_after_update)
  ∧ data_only !! "state" = None
  ∧ Job_getattr (Job_init 7 job_12345) "state" = Ret (AJson (JStr "Running"))
  ∧ Job_getattr {| __dict__ := <["_data" := AJson (JDict ∅)]>
                                 (__dict__ (Job_init 7 job_12345)) |} "state"
    = Raise (KeyError "state").
Proof.
  split; [vm_compute; reflexivity|].
  split; [reflexivity|]. split; reflexivity.
Qed.

(** ** Downloading *)

(** Zero-length chunks contribute nothing to the content. *)
Lemma concat_nonempty_chunks (cs : list string) :
  Py.concat (filter (λ c, c ≠ "") cs) = Py.concat cs.
Proof.
  induction cs as [|c cs IH]; [done|].
  rewrite filter_cons. case_decide as Hc.
  - change (c +:+ Py.concat (filter (λ c, c ≠ "") cs) = c +:+ Py.concat cs).
    by rewrite IH.
  - subst c. exact IH.
Qed.

(** The write loop appends the non-empty chunks, in order, to what the opened
    file holds. *)
Lemma write_chunks_appends (path : string) (cs : list string)
    (lg : list request) (fs : gmap string string) (old : string) (n : nat) :
  write_chunks path cs
    {| log := lg; files := <[path := old]> fs; next_session := n |}
  = (Ret (),
     {| log := lg;
        files := <[path := old +:+ Py.concat (filter (λ c, c ≠ "") cs)]> fs;
        next_session := n |}).
Proof.
  revert old. induction cs as [|c cs IH]; intros old.
  - simpl. by rewrite append_nil_r.
  - simpl. unfold mbind, M_bind. rewrite filter_cons.
    unfold Py.truthy. case_bool_decide as Hc; case_decide; try done; simpl.
    + apply IH.
    + unfold file_write. simpl. rewrite alter_insert_eq, IH.
      by rewrite <- append_assoc.
Qed.

(** C6: on a valid machine, when the server answers the request with a
    status that is not an error and the default local path can be opened,
    [download] without a [local_path] sends a streamed GET for the file,
    returns the last [/]-separated piece of [remote_path], and leaves the
    local file of that name holding exactly the non-empty chunks of the body,
    concatenated in order, whatever that path held before; nothing else in
    the local files changes.  The piece has no [/] in it, and [remote_path]
    is that piece alone or ends in [/] followed by it. *)
Theorem NEWT_download_default_path
    (server : list request → request → reply) (writable : string → bool)
    (self : NEWT) (machine remote_path : string) (w : world)
    (resp : response) :
  machine ∈ NEWT_MACHINES →
  server (log w)
    {| rq_session := _session self; rq_method := GET;
       rq_url := NEWT_BASE_URL +:+ "/file/" +:+ machine +:+ remote_path;
       rq_params := {["view" := JStr "read"]}; rq_data := ∅; rq_files := ∅;
       rq_stream := true |}
  = Reply resp →
  http_error (status_code resp) = false →
  writable (Py.last_item (Py.split "/" remote_path)) = true →
  NEWT_download server writable self machine remote_path None w
  = (Ret (Value (Py.last_item (Py.split "/" remote_path))),
     {| log := log w ++
          [ {| rq_session := _session self; rq_method := GET;
               rq_url := NEWT_BASE_URL +:+ "/file/" +:+ machine
                         +:+ remote_path;
               rq_params := {["view" := JStr "read"]}; rq_data := ∅;
               rq_files := ∅; rq_stream := true |} ];
        files := <[Py.last_item (Py.split "/" remote_path)
                   := Py.concat (filter (λ c, c ≠ "") (chunks resp))]>
                   (files w);
        next_session := next_session w |})
  ∧ Py.mem "/" (Py.last_item (Py.split "/" remote_path)) = false
  ∧ (remote_path = Py.last_item (Py.split "/" remote_path)
     ∨ ∃ before,
         remote_path
         = before +:+ String "/" (Py.last_item (Py.split "/" remote_path))).
Proof.
  intros Hm Hsrv Hst Hw. split; [|apply split_last_item].
  unfold NEWT_download. rewrite (valid_machine_guard _ Hm).
  unfold mbind, M_bind, session_get, send. rewrite Hsrv.
  unfold raise_for_status. rewrite Hst. simpl.
  unfold open_wb. rewrite Hw. simpl.
  by rewrite write_chunks_appends.
Qed.

Lemma NEWT_download_default_path_witness :
  ("hopper" ∈ NEWT_MACHINES)
  ∧ NEWT_download (always (stream_response 200 ["#!/bin"; ""; "/sh"]))
      all_writable a_client "hopper" "/home/u/run.sh" None
      {| log := []; files := {["run.sh" := "old content"]};
         next_session := 1 |}
    = (Ret (Value "run.sh"),
       {| log := [ {| rq_session := 0; rq_method := GET;
                      rq_url := "https://newt.nersc.gov/newt/file/hopper/home/u/run.sh";
                      rq_params := {["view" := JStr "read"]}; rq_data := ∅;
                      rq_files := ∅; rq_stream := true |} ];
          files := <["run.sh" := "#!/bin/sh"]> {["run.sh" := "old content"]};
          next_session := 1 |}).
Proof.
  assert (H : "hopper" ∈ NEWT_MACHINES) by compute_done.
  split; [exact H|].
  exact (proj1 (NEWT_download_default_path
                  (always (stream_response 200 ["#!/bin"; ""; "/sh"]))
                  all_writable a_client "hopper" "/home/u/run.sh"
                  {| log := []; files := {["run.sh" := "old content"]};
                     next_session := 1 |}
                  (stream_response 200 ["#!/bin"; ""; "/sh"])
                  H eq_refl eq_refl eq_refl)).
Defined.

(** ** Uploading *)

(** [rfind] against [split]: the separator is absent exactly when there is a
    single piece, and what follows its last occurrence is the last piece. *)
Lemma drop_rfind (c : ascii) (s : string) :
  Py.drop (Z.to_nat (Py.rfind c s + 1)) s = Py.last_item (Py.split c s)
  ∧ (-1 ≤ Py.rfind c s)%Z
  ∧ (Py.rfind c s = -1 → Py.split c s = [s])%Z
  ∧ ((0 ≤ Py.rfind c s)%Z → (2 ≤ List.length (Py.split c s))%nat).
Proof.
  induction s as [|a s (IHd & IHge & IHneg & IHpos)]; simpl.
  { repeat split; try done; lia. }
  destruct (Z.leb_spec 0 (Py.rfind c s)) as [Hr|Hr].
  - specialize (IHpos Hr).
    replace (Z.to_nat (Py.rfind c s + 1 + 1))
      with (S (Z.to_nat (Py.rfind c s + 1))) by lia.
    simpl. rewrite IHd. unfold Py.last_item.
    destruct (Py.split c s) as [|h [|h' t]] eqn:E; simpl in IHpos; try lia.
    repeat split; try lia; case_decide; simpl; try done; lia.
  - assert (Py.rfind c s = -1)%Z as Hr' by lia.
    rewrite (IHneg Hr'). unfold Py.last_item.
    case_decide; simpl; repeat split; try done; lia.
Qed.

(** The filename component [os.path.split] returns is what follows the last
    [/] of the path. *)
Lemma os_path_split_filename (p : string) :
  (Py.os_path_split p).2 = Py.last_item (Py.split "/" p).
Proof. unfold Py.os_path_split. simpl. apply drop_rfind. Qed.

(** The request [upload] sends on a valid machine. *)
Lemma NEWT_upload_log (server : list request → request → reply)
    (self : NEWT) (machine remote_path : string) (file_obj : fileobj)
    (w : world) :
  machine ∈ NEWT_MACHINES →
  log (NEWT_upload server self machine remote_path file_obj w).2
  = log w ++
    [ {| rq_session := _session self; rq_method := POST;
         rq_url := NEWT_BASE_URL +:+ "/file/" +:+ machine
                   +:+ (Py.os_path_split remote_path).1;
         rq_params := ∅; rq_data := ∅;
         rq_files :=
           {["file" :=
               (if decide ((Py.os_path_split remote_path).2 ≠ "")
                then (Py.os_path_split remote_path).2
                else fo_name file_obj,
                file_obj)]};
         rq_stream := false |} ].
Proof.
  intros Hm. unfold NEWT_upload. rewrite (valid_machine_guard _ Hm).
  destruct (Py.os_path_split remote_path) as [remote_dir remote_filename].
  simpl.
  assert ((if Py.truthy remote_filename
           then {["file" := (remote_filename, file_obj)]}
           else {["file" := (fo_name file_obj, file_obj)]})
          = ({["file" := (if decide (remote_filename ≠ "")
                          then remote_filename else fo_name file_obj,
                          file_obj)]} : gmap string (string * fileobj)))
    as ->.
  { unfold Py.truthy. case_bool_decide; case_decide; done. }
  apply send_then_log. intros resp. auto 10 with stateless.
Qed.

(** C7: on a valid machine [upload] POSTs one multipart request to the
    directory part of [remote_path], whose [file] entry is named by the
    filename component of [remote_path] (what follows its last [/]) when
    that is non-empty and by the file object's own name otherwise; when the
    server answers with a status that is not an error, the call returns
    [True]. *)
Theorem NEWT_upload_filename
    (server : list request → request → reply) (self : NEWT)
    (machine remote_path : string) (file_obj : fileobj) (w : world) :
  machine ∈ NEWT_MACHINES →
  log (NEWT_upload server self machine remote_path file_obj w).2
  = log w ++
    [ {| rq_session := _session self; rq_method := POST;
         rq_url := NEWT_BASE_URL +:+ "/file/" +:+ machine
                   +:+ (Py.os_path_split remote_path).1;
         rq_params := ∅; rq_data := ∅;
         rq_files :=
           {["file" :=
               (if decide ((Py.os_path_split remote_path).2 ≠ "")
                then (Py.os_path_split remote_path).2
                else fo_name file_obj,
                file_obj)]};
         rq_stream := false |} ]
  ∧ (Py.os_path_split remote_path).2
    = Py.last_item (Py.split "/" remote_path)
  ∧ ∀ resp,
      server (log w)
        {| rq_session := _session self; rq_method := POST;
           rq_url := NEWT_BASE_URL +:+ "/file/" +:+ machine
                     +:+ (Py.os_path_split remote_path).1;
           rq_params := ∅; rq_data := ∅;
           rq_files :=
             {["file" :=
                 (if decide ((Py.os_path_split remote_path).2 ≠ "")
                  then (Py.os_path_split remote_path).2
                  else fo_name file_obj,
                  file_obj)]};
           rq_stream := false |}
      = Reply resp →
      http_error (status_code resp) = false →
      (NEWT_upload server self machine remote_path file_obj w).1
      = Ret (Value true).
Proof.
  intros Hm. split; [by apply NEWT_upload_log|].
  split; [apply os_path_split_filename|].
  revert w. unfold NEWT_upload. rewrite (valid_machine_guard _ Hm).
  destruct (Py.os_path_split remote_path) as [remote_dir remote_filename].
  simpl.
  assert ((if Py.truthy remote_filename
           then {["file" := (remote_filename, file_obj)]}
           else {["file" := (fo_name file_obj, file_obj)]})
          = ({["file" := (if decide (remote_filename ≠ "")
                          then remote_filename else fo_name file_obj,
                          file_obj)]} : gmap string (string * fileobj)))
    as ->.
  { unfold Py.truthy. case_bool_decide; case_decide; done. }
  intros w resp Hsrv Hst.
  unfold mbind, M_bind, session_post, send. rewrite Hsrv.
  unfold raise_for_status. by rewrite Hst.
Qed.

Lemma NEWT_upload_filename_witness :
  ("carver" ∈ NEWT_MACHINES)
  ∧ log (NEWT_upload (always (json_response 200 JNull)) a_client "carver"
           "/home/u/submit.pbs" a_file empty_world).2
    = [ {| rq_session := 0; rq_method := POST;
           rq_url := "https://newt.nersc.gov/newt/file/carver/home/u";
           rq_params := ∅; rq_data := ∅;
           rq_files := {["file" := ("submit.pbs", a_file)]};
           rq_stream := false |} ]
  ∧ log (NEWT_upload (always (json_response 200 JNull)) a_client "carver"
           "/home/u/" a_file empty_world).2
    = [ {| rq_session := 0; rq_method := POST;
           rq_url := "https://newt.nersc.gov/newt/file/carver/home/u";
           rq_params := ∅; rq_data := ∅;
           rq_files := {["file" := ("job.pbs", a_file)]};
           rq_stream := false |} ].
Proof.
  assert (H : "carver" ∈ NEWT_MACHINES) by compute_done.
  split; [exact H|]. split.
  - exact (proj1 (NEWT_upload_filename (always (json_response 200 JNull))
                    a_client "carver" "/home/u/submit.pbs" a_file
                    empty_world H)).
  - exact (proj1 (NEWT_upload_filename (always (json_response 200 JNull))
                    a_client "carver" "/home/u/" a_file empty_world H)).
Defined.

(** ** Logging in *)

(** The constructor allocates a session, logs in through it, and fails with
    whatever [login] fails with. *)
Lemma NEWT_init_login (server : list request → request → reply)
    (username password : string) (w : world) :
  (NEWT_init server username password w).1
  = match (NEWT_login server {| _session := next_session w |}
             username password
             {| log := log w; files := files w;
                next_session := S (next_session w) |}).1 with
    | Ret _ => Ret {| _session := next_session w |}
    | Raise e => Raise e
    end.
Proof.
  unfold NEWT_init, new_session. unfold mbind at 1 2. unfold M_bind at 1 2.
  by destruct (NEWT_login _ _ _ _ _) as [[a|e] w'].
Qed.

(** C8, as the code has it.  The constructor raises what [login] raises and
    otherwise returns the client.  Given the reply to the login request:
    a 4xx or 5xx status raises the transport error, whatever the body holds;
    otherwise, with a body that decodes to an object carrying [auth], a false
    auth flag raises the authentication error, an echoed [username] other
    than the one given raises it as well (whatever the auth flag), and a true
    auth flag with the same user name makes [login] return the auth flag. *)
Theorem NEWT_login_outcome (server : list request → request → reply)
    (self : NEWT) (username password : string) (w : world) (resp : response) :
  server (log w)
    {| rq_session := _session self; rq_method := POST;
       rq_url := NEWT_BASE_URL +:+ "/login"; rq_params := ∅;
       rq_data := <["username" := JStr username]>
                    (<["password" := JStr password]> ∅);
       rq_files := ∅; rq_stream := false |}
  = Reply resp →
  (∀ w0,
     (NEWT_init server username password w0).1
     = match (NEWT_login server {| _session := next_session w0 |}
                username password
                {| log := log w0; files := files w0;
                   next_session := S (next_session w0) |}).1 with
       | Ret _ => Ret {| _session := next_session w0 |}
       | Raise e => Raise e
       end)
  ∧ (http_error (status_code resp) = true →
     (NEWT_login server self username password w).1
     = Raise (HTTPError (status_code resp)))
  ∧ (http_error (status_code resp) = false →
     ∀ (m : gmap string json) (auth : json),
       json_body resp = Some (JDict m) →
       m !! "auth" = Some auth →
       (json_truthy auth = false →
        (NEWT_login server self username password w).1 = Raise auth_error)
       ∧ (∀ user, m !! "username" = Some user → user ≠ JStr username →
          (NEWT_login server self username password w).1 = Raise auth_error)
       ∧ (json_truthy auth = true → m !! "username" = Some (JStr username) →
          (NEWT_login server self username password w).1 = Ret auth)).
Proof.
  intros Hsrv. split; [intros w0; apply NEWT_init_login|].
  unfold NEWT_login, mbind, M_bind, session_post, send. rewrite Hsrv.
  unfold raise_for_status. split.
  - by intros ->.
  - intros -> m auth Hj Ha. unfold resp_json. rewrite Hj. simpl.
    unfold lift. simpl. rewrite Ha. split; [|split].
    + by intros ->.
    + intros user Hu Hne. rewrite Hu.
      assert (json_eq_str user username = false) as ->.
      { destruct user; simpl; try done.
        apply bool_decide_eq_false_2. congruence. }
      by destruct (json_truthy auth).
    + intros -> Hu. rewrite Hu. simpl. by rewrite bool_decide_eq_true_2.
Qed.

Lemma NEWT_login_outcome_witness :
  always (json_response 200 (login_body true "bob")) (log empty_world)
    {| rq_session := 0; rq_method := POST;
       rq_url := NEWT_BASE_URL +:+ "/login"; rq_params := ∅;
       rq_data := <["username" := JStr "alice"]>
                    (<["password" := JStr "secret"]> ∅);
       rq_files := ∅; rq_stream := false |}
  = Reply (json_response 200 (login_body true "bob"))
  ∧ (NEWT_login (always (json_response 200 (login_body true "bob")))
       a_client "alice" "secret" empty_world).1
    = Raise auth_error.
Proof.
  split; [reflexivity|].
  refine (proj1 (proj2 (proj2 (proj2 (NEWT_login_outcome
            (always (json_response 200 (login_body true "bob")))
            a_client "alice" "secret" empty_world
            (json_response 200 (login_body true "bob")) eq_refl))
          eq_refl _ (JBool true) eq_refl eq_refl)) (JStr "bob") eq_refl _).
  discriminate.
Defined.

(** C8 as stated fails for a status that is neither 2xx nor an error: a 304
    reply whose body vouches for the user makes [login] return the auth flag
    and the constructor return the client; no transport error is raised. *)
Lemma NEWT_login_304_not_raised :
  ¬ (200 ≤ 304 < 300)%Z
  ∧ (NEWT_login (always (json_response 304 (login_body true "alice")))
       a_client "alice" "secret" empty_world).1
    = Ret (JBool true)
  ∧ (NEWT_init (always (json_response 304 (login_body true "alice")))
       "alice" "secret" empty_world).1
    = Ret {| _session := 0 |}.
Proof. split; [lia|]. split; reflexivity. Qed.

(** ** Listing the queue *)

Lemma Job_news_objects (session : nat) (ms : list (gmap string json)) :
  Forall (λ m, m !! "self" = None ∧ m !! "session" = None) ms →
  Job_news session (JDict <$> ms) = Ret (Job_init session <$> ms).
Proof.
  induction 1 as [|m ms [Hself Hsess] _ IH]; [done|].
  rewrite !fmap_cons. cbn [Job_news Job_new]. rewrite IH.
  rewrite bool_decide_eq_false_2; [done|].
  rewrite Hself, Hsess. intros [[? ?]|[? ?]]; done.
Qed.

(** C9, as the code has it: on a valid machine, when the reply is not an
    error and decodes to a sequence of objects none of which has a field
    named [self] or [session], [queue_stat] returns one handle per object, in
    the order of the sequence; the handle at each position stores exactly
    the fields of the object at that position and refers to the session of
    the client. *)
Theorem NEWT_queue_stat_handles
    (server : list request → request → reply) (self : NEWT)
    (machine : string) (index limit : Z) (kwargs : gmap string json)
    (w : world) (resp : response) (ms : list (gmap string json)) :
  machine ∈ NEWT_MACHINES →
  server (log w)
    {| rq_session := _session self; rq_method := GET;
       rq_url := NEWT_BASE_URL +:+ "/queue/" +:+ machine;
       rq_params := kwargs ∪ <["index" := JNum index]>
                                (<["limit" := JNum limit]> ∅);
       rq_data := ∅; rq_files := ∅; rq_stream := false |}
  = Reply resp →
  http_error (status_code resp) = false →
  json_body resp = Some (JList (JDict <$> ms)) →
  Forall (λ m, m !! "self" = None ∧ m !! "session" = None) ms →
  ∃ jobs : list Job,
    (NEWT_queue_stat server self machine index limit kwargs w).1
    = Ret (Value jobs)
    ∧ List.length jobs = List.length ms
    ∧ ∀ (i : nat) (m : gmap string json),
        ms !! i = Some m →
        ∃ j, jobs !! i = Some j
             ∧ __dict__ j !! "_data" = Some (AJson (JDict m))
             ∧ __dict__ j !! "_session" = Some (ASession (_session self)).
Proof.
  intros Hm Hsrv Hst Hj Hms. exists (Job_init (_session self) <$> ms).
  split; [|split].
  - unfold NEWT_queue_stat. rewrite (valid_machine_guard _ Hm).
    unfold mbind, M_bind, session_get, send. rewrite Hsrv.
    unfold raise_for_status. rewrite Hst. simpl.
    unfold resp_json. rewrite Hj. simpl.
    unfold lift. by rewrite (Job_news_objects _ _ Hms).
  - by rewrite length_fmap.
  - intros i m Hi. exists (Job_init (_session self) m).
    rewrite list_lookup_fmap, Hi. done.
Qed.

Lemma NEWT_queue_stat_handles_witness :
  ("edison" ∈ NEWT_MACHINES)
  ∧ Forall (λ m : gmap string json, m !! "self" = None ∧ m !! "session" = None)
      [job_12345; state_complete]
  ∧ ∃ jobs : list Job,
      (NEWT_queue_stat
         (always (json_response 200
                    (JList (JDict <$> [job_12345; state_complete]))))
         a_client "edison" 0 10 ∅ empty_world).1
      = Ret (Value jobs)
      ∧ List.length jobs = 2
      ∧ ∀ (i : nat) (m : gmap string json),
          [job_12345; state_complete] !! i = Some m →
          ∃ j, jobs !! i = Some j
               ∧ __dict__ j !! "_data" = Some (AJson (JDict m))
               ∧ __dict__ j !! "_session" = Some (ASession 0).
Proof.
  assert (H : "edison" ∈ NEWT_MACHINES) by compute_done.
  assert (HF : Forall (λ m : gmap string json,
                         m !! "self" = None ∧ m !! "session" = None)
                 [job_12345; state_complete]) by (repeat constructor).
  split; [exact H|]. split; [exact HF|].
  exact (NEWT_queue_stat_handles
           (always (json_response 200
                      (JList (JDict <$> [job_12345; state_complete]))))
           a_client "edison" 0 10 ∅ empty_world
           (json_response 200 (JList (JDict <$> [job_12345; state_complete])))
           [job_12345; state_complete] H eq_refl eq_refl eq_refl HF).
Defined.

(** C9 as stated fails: a listing whose one entry has a field named
    [session] yields no handle; the call raises [TypeError]. *)
Lemma NEWT_queue_stat_session_field :
  ("edison" ∈ NEWT_MACHINES)
  ∧ (NEWT_queue_stat
       (always (json_response 200 (JList [JDict session_entry])))
       a_client "edison" 0 10 ∅ empty_world).1
    = Raise (TypeError "__init__() got multiple values for keyword argument").
Proof. split; [compute_done|reflexivity]. Qed.

(** ** The URLs of the file operations *)

(** Writing to local files adds nothing to the request log. *)
Lemma write_chunks_log (path : string) (cs : list string) (w : world) :
  log (write_chunks path cs w).2 = log w.
Proof.
  revert w. induction cs as [|c cs IH]; intros w; [done|].
  simpl. unfold mbind, M_bind. destruct (Py.truthy c); simpl; by rewrite IH.
Qed.

Lemma NEWT_list_log (server : list request → request → reply)
    (self : NEWT) (machine remote_dir : string) (w : world) :
  machine ∈ NEWT_MACHINES →
  log (NEWT_list server self machine remote_dir w).2
  = log w ++
    [ {| rq_session := _session self; rq_method := GET;
         rq_url := NEWT_BASE_URL +:+ "/file/" +:+ machine +:+ remote_dir;
         rq_params := ∅; rq_data := ∅; rq_files := ∅; rq_stream := false |} ].
Proof.
  intros Hm. unfold NEWT_list. rewrite (valid_machine_guard _ Hm).
  apply send_then_log. intros resp. auto 10 with stateless.
Qed.

Lemma NEWT_download_log (server : list request → request → reply)
    (writable : string → bool) (self : NEWT) (machine remote_path : string)
    (local_path : option string) (w : world) :
  machine ∈ NEWT_MACHINES →
  log (NEWT_download server writable self machine remote_path local_path w).2
  = log w ++
    [ {| rq_session := _session self; rq_method := GET;
         rq_url := NEWT_BASE_URL +:+ "/file/" +:+ machine +:+ remote_path;
         rq_params := {["view" := JStr "read"]}; rq_data := ∅; rq_files := ∅;
         rq_stream := true |} ].
Proof.
  intros Hm. unfold NEWT_download. rewrite (valid_machine_guard _ Hm).
  unfold mbind, M_bind, session_get, send.
  destruct (server (log w) _) as [resp|]; [|done].
  unfold raise_for_status. destruct (http_error (status_code resp)); [done|].
  simpl. unfold open_wb. destruct (writable _); [|done]. simpl.
  match goal with
  | |- context [write_chunks ?p ?cs ?w0] =>
      pose proof (write_chunks_log p cs w0) as Hl;
      destruct (write_chunks p cs w0) as [[[]|e] w1]
  end; simpl in *; by rewrite Hl.
Qed.

(** [rstrip] leaves nothing only of a string made of the stripped character;
    otherwise it keeps the first character. *)
Lemma rstrip_empty (c : ascii) (s : string) :
  Py.rstrip c s = "" → s = Py.replicate (String.length s) c.
Proof.
  induction s as [|a s IH]; [done|]. simpl.
  case_decide as H; [|done]. destruct H as [Hr ->]. intros _.
  by rewrite <- (IH Hr).
Qed.

Lemma rstrip_starts_with (c c' : ascii) (s : string) :
  Py.rstrip c s ≠ "" →
  Py.starts_with c' (Py.rstrip c s) = Py.starts_with c' s.
Proof. destruct s as [|a s]; [done|]. simpl. by case_decide. Qed.

(** The directory part [os.path.split] returns begins with [/] exactly when
    the path does. *)
Lemma os_path_split_dir_starts_with (p : string) :
  Py.starts_with "/" (Py.os_path_split p).1 = Py.starts_with "/" p.
Proof.
  unfold Py.os_path_split. simpl.
  assert (Py.starts_with "/" (Py.take (Z.to_nat (Py.rfind "/" p + 1)) p)
          = Py.starts_with "/" p) as Ht.
  { destruct p as [|a p]; [done|]. simpl.
    destruct (Z.leb_spec 0 (Py.rfind "/" p)) as [Hr|Hr].
    - replace (Z.to_nat (Py.rfind "/" p + 1 + 1))
        with (S (Z.to_nat (Py.rfind "/" p + 1))) by lia. done.
    - case_decide as Ha; simpl; [done|]. by rewrite bool_decide_eq_false_2. }
  case_decide as Hc; [|done]. destruct Hc as [_ Hc].
  rewrite rstrip_starts_with; [done|].
  intros Hr. by apply rstrip_empty in Hr.
Qed.

(** C10, as the code has it: on a valid machine the URL [list] and
    [download] request is the base URL, [/file/], the machine and the
    caller's remote path written one after the other; the URL [upload]
    requests is built the same way from the directory part of the remote path
    ([os.path.split]), which begins with [/] exactly when the remote path
    does.  Nothing is put between machine and path: such a URL continues
    with [/] after the machine exactly when the path begins with [/]. *)
Theorem file_request_urls
    (server : list request → request → reply) (writable : string → bool)
    (self : NEWT) (machine path : string) (local_path : option string)
    (file_obj : fileobj) (w : world) :
  machine ∈ NEWT_MACHINES →
  rq_url <$> log (NEWT_list server self machine path w).2
  = (rq_url <$> log w) ++ [NEWT_BASE_URL +:+ "/file/" +:+ machine +:+ path]
  ∧ rq_url <$>
      log (NEWT_download server writable self machine path local_path w).2
    = (rq_url <$> log w) ++ [NEWT_BASE_URL +:+ "/file/" +:+ machine +:+ path]
  ∧ rq_url <$> log (NEWT_upload server self machine path file_obj w).2
    = (rq_url <$> log w)
      ++ [NEWT_BASE_URL +:+ "/file/" +:+ machine
          +:+ (Py.os_path_split path).1]
  ∧ Py.starts_with "/" (Py.os_path_split path).1 = Py.starts_with "/" path
  ∧ ∀ p : string,
      Py.starts_with "/" p = true
      ↔ ∃ rest, NEWT_BASE_URL +:+ "/file/" +:+ machine +:+ p
                = NEWT_BASE_URL +:+ "/file/" +:+ machine +:+ String "/" rest.
Proof.
  intros Hm. repeat apply conj.
  - rewrite (NEWT_list_log _ _ _ _ _ Hm). by rewrite fmap_app.
  - rewrite (NEWT_download_log _ _ _ _ _ _ _ Hm). by rewrite fmap_app.
  - rewrite (NEWT_upload_log _ _ _ _ _ _ Hm). by rewrite fmap_app.
  - apply os_path_split_dir_starts_with.
  - intros p. split.
    + destruct p as [|a p]; [done|]. simpl. intros Ha.
      apply bool_decide_eq_true_1 in Ha as ->. by exists p.
    + intros [rest Hp]. do 3 apply (inj (String.app _)) in Hp. by subst p.
Qed.

Lemma file_request_urls_witness :
  ("hopper" ∈ NEWT_MACHINES)
  ∧ rq_url <$>
      log (NEWT_list (always (json_response 200 (JList []))) a_client
             "hopper" "/home/u" empty_world).2
    = ["https://newt.nersc.gov/newt/file/hopper/home/u"]
  ∧ rq_url <$>
      log (NEWT_upload (always (json_response 200 JNull)) a_client
             "hopper" "/home/u/a.txt" a_file empty_world).2
    = ["https://newt.nersc.gov/newt/file/hopper/home/u"].
Proof.
  assert (H : "hopper" ∈ NEWT_MACHINES) by compute_done.
  split; [exact H|]. split.
  - exact (proj1 (file_request_urls (always (json_response 200 (JList [])))
                    all_writable a_client "hopper" "/home/u" None a_file
                    empty_world H)).
  - exact (proj1 (proj2 (proj2 (file_request_urls
                    (always (json_response 200 JNull)) all_writable a_client
                    "hopper" "/home/u/a.txt" None a_file empty_world H)))).
Defined.

(** C10 as stated fails for [upload]: with a remote path that names a file,
    the URL requested stops at the directory and is not the base URL,
    [/file/], the machine and the remote path written one after the other. *)
Lemma NEWT_upload_url_is_directory :
  ("hopper" ∈ NEWT_MACHINES)
  ∧ rq_url <$>
      log (NEWT_upload (always (json_response 200 JNull)) a_client
             "hopper" "/home/u/a.txt" a_file empty_world).2
    = ["https://newt.nersc.gov/newt/file/hopper/home/u"]
  ∧ "https://newt.nersc.gov/newt/file/hopper/home/u"
    ≠ NEWT_BASE_URL +:+ "/file/" +:+ "hopper" +:+ "/home/u/a.txt".
Proof. split; [compute_done|]. split; [reflexivity|discriminate]. Qed.

(** ** One request per call, and its transport failures *)

Lemma stateless_keeps_log {A : Type} (m : M A) : stateless m → keeps_log m.
Proof. intros H w. by rewrite H. Qed.

Lemma keeps_log_bind {A B : Type} (m : M A) (k : A → M B) :
  keeps_log m → (∀ a, keeps_log (k a)) → keeps_log (m ≫= k).
Proof.
  intros Hm Hk w. unfold mbind, M_bind.
  specialize (Hm w). destruct (m w) as [[a|e] w']; simpl in *.
  - by rewrite Hk.
  - done.
Qed.

Lemma keeps_log_open_wb (writable : string → bool) (path : string) :
  keeps_log (open_wb writable path).
Proof. intros w. unfold open_wb. by destruct (writable path). Qed.

Lemma keeps_log_write_chunks (path : string) (cs : list string) :
  keeps_log (write_chunks path cs).
Proof. intros w. apply write_chunks_log. Qed.

(** The shape every method has: send, check the status, go on. *)
Lemma exchange_sends_one {A : Type} (server : list request → request → reply)
    (rq : request) (k : response → M A) :
  (∀ resp, keeps_log (k resp)) →
  sends_one (rq_session rq)
    (send server rq ≫= λ resp, raise_for_status resp ≫= λ _, k resp).
Proof.
  intros Hk w. exists rq. split; [|done].
  unfold mbind, M_bind, send, raise_for_status.
  destruct (server (log w) rq) as [resp|]; [|done].
  destruct (http_error (status_code resp)); [done|].
  simpl. by rewrite Hk.
Qed.

Lemma exchange_transport_checked {A : Type}
    (server : list request → request → reply)
    (rq : request) (k : response → M A) :
  (∀ resp, keeps_log (k resp)) →
  transport_checked server
    (send server rq ≫= λ resp, raise_for_status resp ≫= λ _, k resp).
Proof.
  intros Hk w rq' Hlog.
  destruct (exchange_sends_one server rq k Hk w) as (rq0 & Hlog0 & _).
  assert (rq' = rq) as ->.
  { assert (log (send server rq w).2 = log w ++ [rq]) as Hs.
    { unfold send. by destruct (server (log w) rq). }
    revert Hlog. unfold mbind, M_bind, raise_for_status.
    destruct (send server rq w) as [[resp|e] w1] eqn:E; simpl in *.
    - destruct (http_error (status_code resp)); simpl.
      + rewrite Hs. intros H%(inj (app (log w))). by simplify_eq.
      + rewrite Hk, Hs. intros H%(inj (app (log w))). by simplify_eq.
    - rewrite Hs. intros H%(inj (app (log w))). by simplify_eq. }
  unfold mbind, M_bind, send, raise_for_status, logged.
  destruct (server (log w) rq) as [resp|]; [|done].
  by intros ->.
Qed.

Ltac solve_keeps_log :=
  intros;
  first
    [ apply keeps_log_open_wb
    | apply keeps_log_write_chunks
    | apply stateless_keeps_log; solve [auto 12 with stateless]
    | apply keeps_log_bind; [solve_keeps_log | intros ?; solve_keeps_log] ].

(** Every method of the client, on a machine it accepts, sends exactly one
    request through the client's own session: no retry, no second exchange,
    whatever the reply and whether or not the call then fails. *)
Theorem NEWT_methods_send_one
    (server : list request → request → reply) (writable : string → bool)
    (self : NEWT) (machine path command username password : string)
    (system local_path jobfile : option string) (file_obj : fileobj)
    (loginenv : bool) (index limit : Z) (kwargs : gmap string json)
    (script : jobscript) :
  machine ∈ NEWT_MACHINES →
  sends_one (_session self) (NEWT_login server self username password)
  ∧ sends_one (_session self) (NEWT_logout server self)
  ∧ sends_one (_session self) (NEWT_is_auth server self)
  ∧ sends_one (_session self) (NEWT_status server self system)
  ∧ sends_one (_session self) (NEWT_motd server self)
  ∧ sends_one (_session self) (NEWT_list server self machine path)
  ∧ sends_one (_session self)
      (NEWT_download server writable self machine path local_path)
  ∧ sends_one (_session self) (NEWT_upload server self machine path file_obj)
  ∧ sends_one (_session self)
      (NEWT_run_command server self machine command loginenv)
  ∧ sends_one (_session self)
      (NEWT_queue_stat server self machine index limit kwargs)
  ∧ sends_one (_session self)
      (NEWT_queue_submit server self machine script jobfile).
Proof.
  intros Hm.
  unfold NEWT_login, NEWT_logout, NEWT_is_auth, NEWT_status, NEWT_motd,
    NEWT_list, NEWT_download, NEWT_upload, NEWT_run_command, NEWT_queue_stat,
    NEWT_queue_submit.
  rewrite (valid_machine_guard _ Hm).
  destruct (Py.os_path_split path) as [remote_dir remote_filename].
  repeat apply conj;
    try (destruct system as [sys|]; [destruct (Py.truthy sys)|]);
    unfold session_get, session_post;
    match goal with
    | |- sends_one _ (send _ ?rq ≫= _) =>
        apply (exchange_sends_one server rq); solve_keeps_log
    end.
Qed.

Lemma NEWT_methods_send_one_witness :
  ("hopper" ∈ NEWT_MACHINES)
  ∧ sends_one 0 (NEWT_motd (always (json_response 500 JNull)) a_client).
Proof.
  assert (H : "hopper" ∈ NEWT_MACHINES) by compute_done.
  split; [exact H|].
  exact (proj1 (proj2 (proj2 (proj2 (proj2
           (NEWT_methods_send_one (always (json_response 500 JNull))
              all_writable a_client "hopper" "/" "ls" "alice" "secret"
              None None None a_file true 0 10 ∅ (ScriptText "") H)))))).
Defined.

(** Every method of the client checks the transport before anything else:
    when its request gets no reply it raises the connection error, and when
    the reply has a 4xx or 5xx status it raises the HTTP error for that
    status, whatever the body holds; in both cases nothing but the request
    log has changed (in particular [download] has not touched a local
    file). *)
Theorem NEWT_methods_transport_checked
    (server : list request → request → reply) (writable : string → bool)
    (self : NEWT) (machine path command username password : string)
    (system local_path jobfile : option string) (file_obj : fileobj)
    (loginenv : bool) (index limit : Z) (kwargs : gmap string json)
    (script : jobscript) :
  machine ∈ NEWT_MACHINES →
  transport_checked server (NEWT_login server self username password)
  ∧ transport_checked server (NEWT_logout server self)
  ∧ transport_checked server (NEWT_is_auth server self)
  ∧ transport_checked server (NEWT_status server self system)
  ∧ transport_checked server (NEWT_motd server self)
  ∧ transport_checked server (NEWT_list server self machine path)
  ∧ transport_checked server
      (NEWT_download server writable self machine path local_path)
  ∧ transport_checked server (NEWT_upload server self machine path file_obj)
  ∧ transport_checked server
      (NEWT_run_command server self machine command loginenv)
  ∧ transport_checked server
      (NEWT_queue_stat server self machine index limit kwargs)
  ∧ transport_checked server
      (NEWT_queue_submit server self machine script jobfile).
Proof.
  intros Hm.
  unfold NEWT_login, NEWT_logout, NEWT_is_auth, NEWT_status, NEWT_motd,
    NEWT_list, NEWT_download, NEWT_upload, NEWT_run_command, NEWT_queue_stat,
    NEWT_queue_submit.
  rewrite (valid_machine_guard _ Hm).
  destruct (Py.os_path_split path) as [remote_dir remote_filename].
  repeat apply conj;
    try (destruct system as [sys|]; [destruct (Py.truthy sys)|]);
    unfold session_get, session_post;
    match goal with
    | |- transport_checked _ (send _ ?rq ≫= _) =>
        apply (exchange_transport_checked server rq); solve_keeps_log
    end.
Qed.

Lemma NEWT_methods_transport_checked_witness :
  ("hopper" ∈ NEWT_MACHINES)
  ∧ NEWT_download (always (stream_response 404 ["not found"])) all_writable
      a_client "hopper" "/home/u/run.sh" None world_with_run_sh
    = (Raise (HTTPError 404), logged download_run_sh world_with_run_sh).
Proof.
  assert (H : "hopper" ∈ NEWT_MACHINES) by compute_done.
  split; [exact H|].
  exact (proj1 (proj2 (proj2 (proj2 (proj2 (proj2 (proj2
           (NEWT_methods_transport_checked
              (always (stream_response 404 ["not found"]))
              all_writable a_client "hopper" "/home/u/run.sh" "ls" "alice"
              "secret" None None None a_file true 0 10 ∅ (ScriptText "")
              H)))))))
           world_with_run_sh download_run_sh eq_refl eq_refl).
Defined.

(** ** Downloading to a chosen path *)

(** With a non-empty [local_path] and a reply that is not an error,
    [download] writes the non-empty chunks to that path and returns it,
    whatever the remote file is called; when the path cannot be opened it
    raises [IOError] after the request has been sent, and no local file has
    changed. *)
Theorem NEWT_download_explicit_path
    (server : list request → request → reply) (writable : string → bool)
    (self : NEWT) (machine remote_path local_path : string) (w : world)
    (resp : response) :
  machine ∈ NEWT_MACHINES →
  local_path ≠ "" →
  server (log w)
    {| rq_session := _session self; rq_method := GET;
       rq_url := NEWT_BASE_URL +:+ "/file/" +:+ machine +:+ remote_path;
       rq_params := {["view" := JStr "read"]}; rq_data := ∅; rq_files := ∅;
       rq_stream := true |}
  = Reply resp →
  http_error (status_code resp) = false →
  NEWT_download server writable self machine remote_path (Some local_path) w
  = if writable local_path
    then (Ret (Value local_path),
          {| log := log w ++
               [ {| rq_session := _session self; rq_method := GET;
                    rq_url := NEWT_BASE_URL +:+ "/file/" +:+ machine
                              +:+ remote_path;
                    rq_params := {["view" := JStr "read"]}; rq_data := ∅;
                    rq_files := ∅; rq_stream := true |} ];
             files := <[local_path
                        := Py.concat (filter (λ c, c ≠ "") (chunks resp))]>
                        (files w);
             next_session := next_session w |})
    else (Raise (IOError local_path),
          {| log := log w ++
               [ {| rq_session := _session self; rq_method := GET;
                    rq_url := NEWT_BASE_URL +:+ "/file/" +:+ machine
                              +:+ remote_path;
                    rq_params := {["view" := JStr "read"]}; rq_data := ∅;
                    rq_files := ∅; rq_stream := true |} ];
             files := files w;
             next_session := next_session w |}).
Proof.
  intros Hm Hne Hsrv Hst.
  unfold NEWT_download. rewrite (valid_machine_guard _ Hm).
  assert (Py.truthy local_path = true) as ->.
  { unfold Py.truthy. by rewrite bool_decide_eq_false_2. }
  unfold mbind, M_bind, session_get, send. rewrite Hsrv.
  unfold raise_for_status. rewrite Hst. simpl.
  unfold open_wb. destruct (writable local_path); simpl; [|done].
  by rewrite write_chunks_appends.
Qed.

Lemma NEWT_download_explicit_path_witness :
  ("hopper" ∈ NEWT_MACHINES)
  ∧ "backup.sh" ≠ ""
  ∧ NEWT_download (always (stream_response 200 ["#!/bin"; ""; "/sh"]))
      all_writable a_client "hopper" "/home/u/run.sh" (Some "backup.sh")
      world_with_run_sh
    = (Ret (Value "backup.sh"),
       {| log := [download_run_sh];
          files := <["backup.sh" := "#!/bin/sh"]>
                     {["run.sh" := "old content"]};
          next_session := 1 |}).
Proof.
  assert (H : "hopper" ∈ NEWT_MACHINES) by compute_done.
  assert (Hne : "backup.sh" ≠ "") by discriminate.
  split; [exact H|]. split; [exact Hne|].
  exact (NEWT_download_explicit_path
           (always (stream_response 200 ["#!/bin"; ""; "/sh"]))
           all_writable a_client "hopper" "/home/u/run.sh" "backup.sh"
           world_with_run_sh (stream_response 200 ["#!/bin"; ""; "/sh"])
           H Hne eq_refl eq_refl).
Defined.

(** ** Bodies that do not decode *)

(** The request a single exchange has logged is the one it sent. *)
Lemma exchange_logged {A : Type} (server : list request → request → reply)
    (rq rq' : request) (k : response → M A) (w : world) :
  (∀ resp, keeps_log (k resp)) →
  log ((send server rq ≫= λ resp, raise_for_status resp ≫= λ _, k resp) w).2
  = log w ++ [rq'] →
  rq' = rq.
Proof.
  intros Hk Hlog.
  destruct (exchange_sends_one server rq k Hk w) as (rq0 & Hlog0 & _).
  rewrite Hlog in Hlog0. apply (inj (app (log w))) in Hlog0.
  revert Hlog. unfold mbind, M_bind, raise_for_status, send.
  destruct (server (log w) rq) as [resp|]; simpl.
  - destruct (http_error (status_code resp)); simpl.
    + intros H%(inj (app (log w))). by simplify_eq.
    + rewrite Hk. simpl. intros H%(inj (app (log w))). by simplify_eq.
  - intros H%(inj (app (log w))). by simplify_eq.
Qed.

Lemma exchange_decoding_checked {A : Type}
    (server : list request → request → reply)
    (rq : request) (k : response → M A) :
  (∀ resp, keeps_log (k resp)) →
  (∀ resp w, json_body resp = None →
     k resp w = (Raise (ValueError "No JSON object could be decoded"), w)) →
  decoding_checked server
    (send server rq ≫= λ resp, raise_for_status resp ≫= λ _, k resp).
Proof.
  intros Hk Hdec w rq' resp Hlog Hsrv Hst Hj.
  apply exchange_logged in Hlog as ->; [|done].
  unfold mbind, M_bind, send, raise_for_status, logged.
  rewrite Hsrv, Hst. simpl. by rewrite Hdec.
Qed.

(** Every method that reads the decoded body ([login], [logout], [is_auth],
    [status], [list], [run_command], [queue_stat], [queue_submit]) raises the
    decoding error when a reply that is no error carries a body that does not
    decode.  [motd] and [upload] never decode: on such a reply [motd] returns
    the text of the body and [upload] returns [True]. *)
Theorem NEWT_methods_decoding
    (server : list request → request → reply)
    (self : NEWT) (machine path command username password : string)
    (system jobfile : option string) (file_obj : fileobj)
    (loginenv : bool) (index limit : Z) (kwargs : gmap string json)
    (script : jobscript) :
  machine ∈ NEWT_MACHINES →
  decoding_checked server (NEWT_login server self username password)
  ∧ decoding_checked server (NEWT_logout server self)
  ∧ decoding_checked server (NEWT_is_auth server self)
  ∧ decoding_checked server (NEWT_status server self system)
  ∧ decoding_checked server (NEWT_list server self machine path)
  ∧ decoding_checked server
      (NEWT_run_command server self machine command loginenv)
  ∧ decoding_checked server
      (NEWT_queue_stat server self machine index limit kwargs)
  ∧ decoding_checked server
      (NEWT_queue_submit server self machine script jobfile)
  ∧ (∀ w rq resp,
       log (NEWT_motd server self w).2 = log w ++ [rq] →
       server (log w) rq = Reply resp →
       http_error (status_code resp) = false →
       NEWT_motd server self w = (Ret (text resp), logged rq w))
  ∧ (∀ w rq resp,
       log (NEWT_upload server self machine path file_obj w).2
       = log w ++ [rq] →
       server (log w) rq = Reply resp →
       http_error (status_code resp) = false →
       NEWT_upload server self machine path file_obj w
       = (Ret (Value true), logged rq w)).
Proof.
  intros Hm.
  unfold NEWT_login, NEWT_logout, NEWT_is_auth, NEWT_status, NEWT_motd,
    NEWT_list, NEWT_upload, NEWT_run_command, NEWT_queue_stat,
    NEWT_queue_submit.
  rewrite (valid_machine_guard _ Hm).
  destruct (Py.os_path_split path) as [remote_dir remote_filename].
  repeat apply conj;
    try (destruct system as [sys|]; [destruct (Py.truthy sys)|]);
    unfold session_get, session_post;
    try match goal with
    | |- decoding_checked _ (send _ ?rq ≫= _) =>
        apply (exchange_decoding_checked server rq);
        [ solve_keeps_log
        | intros resp w Hj; unfold mbind, M_bind, resp_json; by rewrite Hj ]
    end.
  all: intros w rq resp Hlog Hsrv Hst.
  all: apply exchange_logged in Hlog as ->; [|solve_keeps_log].
  all: unfold mbind, M_bind, send, raise_for_status, logged.
  all: by rewrite Hsrv, Hst.
Qed.

Lemma NEWT_methods_decoding_witness :
  ("carver" ∈ NEWT_MACHINES)
  ∧ NEWT_run_command (always (stream_response 200 ["<html>"])) a_client
      "carver" "ls" true empty_world
    = (Raise (ValueError "No JSON object could be decoded"),
       logged {| rq_session := 0; rq_method := POST;
                 rq_url := "https://newt.nersc.gov/newt/command/carver";
                 rq_params := ∅;
                 rq_data := <["executable" := JStr "ls"]>
                              (<["loginenv" := JBool true]> ∅);
                 rq_files := ∅; rq_stream := false |} empty_world).
Proof.
  assert (H : "carver" ∈ NEWT_MACHINES) by compute_done.
  split; [exact H|].
  exact (proj1 (proj2 (proj2 (proj2 (proj2 (proj2
           (NEWT_methods_decoding (always (stream_response 200 ["<html>"]))
              a_client "carver" "/" "ls" "alice" "secret" None None a_file
              true 0 10 ∅ (ScriptText "") H))))))
           empty_world _ (stream_response 200 ["<html>"])
           eq_refl eq_refl eq_refl eq_refl).
Defined.

(** ** Authentication state and status queries *)

(** On a reply that is no error and decodes to an object, [is_auth] hands
    back the [auth] entry as it was received, [logout] returns the negation
    of that entry's truth value (so [True] exactly when the server reports
    the session as no longer authenticated), and both raise [KeyError] when
    the object has no [auth] entry. *)
Theorem NEWT_logout_is_auth
    (server : list request → request → reply) (self : NEWT) (w : world)
    (resp : response) (m : gmap string json) :
  http_error (status_code resp) = false →
  json_body resp = Some (JDict m) →
  (server (log w)
     {| rq_session := _session self; rq_method := GET;
        rq_url := NEWT_BASE_URL +:+ "/logout"; rq_params := ∅; rq_data := ∅;
        rq_files := ∅; rq_stream := false |}
   = Reply resp →
   (NEWT_logout server self w).1
   = match m !! "auth" with
     | Some auth => Ret (negb (json_truthy auth))
     | None => Raise (KeyError "auth")
     end)
  ∧ (server (log w)
       {| rq_session := _session self; rq_method := GET;
          rq_url := NEWT_BASE_URL +:+ "/auth"; rq_params := ∅; rq_data := ∅;
          rq_files := ∅; rq_stream := false |}
     = Reply resp →
     (NEWT_is_auth server self w).1
     = match m !! "auth" with
       | Some auth => Ret auth
       | None => Raise (KeyError "auth")
       end).
Proof.
  intros Hst Hj. split; intros Hsrv.
  - unfold NEWT_logout, mbind, M_bind, session_get, send. rewrite Hsrv.
    unfold raise_for_status, resp_json. rewrite Hst, Hj. simpl.
    unfold lift. by destruct (m !! "auth").
  - unfold NEWT_is_auth, mbind, M_bind, session_get, send. rewrite Hsrv.
    unfold raise_for_status, resp_json. rewrite Hst, Hj. simpl.
    unfold lift. by destruct (m !! "auth").
Qed.

Lemma NEWT_logout_is_auth_witness :
  http_error (status_code (json_response 200 (login_body false "alice")))
  = false
  ∧ (NEWT_logout (always (json_response 200 (login_body false "alice")))
       a_client empty_world).1
    = Ret true
  ∧ (NEWT_is_auth (always (json_response 200 (login_body false "alice")))
       a_client empty_world).1
    = Ret (JBool false).
Proof.
  split; [reflexivity|].
  pose proof (NEWT_logout_is_auth
                (always (json_response 200 (login_body false "alice")))
                a_client empty_world
                (json_response 200 (login_body false "alice"))
                (<["auth" := JBool false]> (<["username" := JStr "alice"]> ∅))
                eq_refl eq_refl) as [Hout Hauth].
  split; [exact (Hout eq_refl)|exact (Hauth eq_refl)].
Defined.

(** [status] performs no validation of its argument: any non-empty system
    name, listed in [NEWT_SYSTEMS] or not, is requested as
    [/status/<system>], and an empty name is treated like an omitted one
    (the aggregate [/status]).  The request is sent in every case. *)
Theorem NEWT_status_request
    (server : list request → request → reply) (self : NEWT)
    (system : option string) (w : world) :
  log (NEWT_status server self system w).2
  = log w ++
    [ {| rq_session := _session self; rq_method := GET;
         rq_url := match system with
                   | Some sys =>
                       if decide (sys = "") then NEWT_BASE_URL +:+ "/status"
                       else NEWT_BASE_URL +:+ "/status" +:+ "/" +:+ sys
                   | None => NEWT_BASE_URL +:+ "/status"
                   end;
         rq_params := ∅; rq_data := ∅; rq_files := ∅; rq_stream := false |} ]
  ∧ NEWT_status server self (Some "") w = NEWT_status server self None w.
Proof.
  split; [|done].
  unfold NEWT_status, session_get.
  destruct system as [sys|].
  - unfold Py.truthy. case_bool_decide; case_decide; try done; simpl.
    + apply send_then_log. intros resp. auto 10 with stateless.
    + rewrite <- append_assoc.
      apply send_then_log. intros resp. auto 10 with stateless.
  - apply send_then_log. intros resp. auto 10 with stateless.
Qed.

(** ** Login replies that lack a field *)

(** On a reply that is no error, [login] does not validate the body: a body
    that decodes to something other than an object raises [TypeError], an
    object without [auth] raises [KeyError] for [auth], and an object whose
    auth flag is true but which echoes no [username] raises [KeyError] for
    [username]; none of these is the authentication error. *)
Theorem NEWT_login_malformed_body
    (server : list request → request → reply) (self : NEWT)
    (username password : string) (w : world) (resp : response) (body : json) :
  server (log w)
    {| rq_session := _session self; rq_method := POST;
       rq_url := NEWT_BASE_URL +:+ "/login"; rq_params := ∅;
       rq_data := <["username" := JStr username]>
                    (<["password" := JStr password]> ∅);
       rq_files := ∅; rq_stream := false |}
  = Reply resp →
  http_error (status_code resp) = false →
  json_body resp = Some body →
  ((∀ m, body ≠ JDict m) →
   ∃ msg, (NEWT_login server self username password w).1
          = Raise (TypeError msg))
  ∧ (∀ m, body = JDict m → m !! "auth" = None →
     (NEWT_login server self username password w).1 = Raise (KeyError "auth"))
  ∧ (∀ m auth, body = JDict m → m !! "auth" = Some auth →
     json_truthy auth = true → m !! "username" = None →
     (NEWT_login server self username password w).1
     = Raise (KeyError "username")).
Proof.
  intros Hsrv Hst Hj.
  unfold NEWT_login, mbind, M_bind, session_post, send. rewrite Hsrv.
  unfold raise_for_status, resp_json. rewrite Hst, Hj. simpl. unfold lift.
  split; [|split].
  - intros Hb. destruct body as [| | | | |m]; simpl; try by eexists.
    by destruct (Hb m).
  - intros m -> Ha. simpl. by rewrite Ha.
  - intros m auth -> Ha Ht Hu. simpl. rewrite Ha, Ht. simpl. by rewrite Hu.
Qed.

Lemma NEWT_login_malformed_body_witness :
  always (json_response 200 (JDict {["auth" := JBool true]}))
    (log empty_world)
    {| rq_session := 0; rq_method := POST;
       rq_url := NEWT_BASE_URL +:+ "/login"; rq_params := ∅;
       rq_data := <["username" := JStr "alice"]>
                    (<["password" := JStr "secret"]> ∅);
       rq_files := ∅; rq_stream := false |}
  = Reply (json_response 200 (JDict {["auth" := JBool true]}))
  ∧ (NEWT_login (always (json_response 200 (JDict {["auth" := JBool true]})))
       a_client "alice" "secret" empty_world).1
    = Raise (KeyError "username").
Proof.
  split; [reflexivity|].
  exact (proj2 (proj2 (NEWT_login_malformed_body
           (always (json_response 200 (JDict {["auth" := JBool true]})))
           a_client "alice" "secret" empty_world
           (json_response 200 (JDict {["auth" := JBool true]}))
           (JDict {["auth" := JBool true]}) eq_refl eq_refl eq_refl))
           {["auth" := JBool true]} (JBool true)
           eq_refl eq_refl eq_refl eq_refl).
Defined.

(** ** Reading a freshly built handle *)

(** Reading a name on a handle just built, case by case. *)
Lemma Job_init_read_cases (session : nat) (kwargs : gmap string json)
    (name : string) :
  Job_getattr (Job_init session kwargs) name
  = if bool_decide (name = "__dict__" ∨ name = "__class__"
                    ∨ name ∈ Job_class_attrs)
    then Ret (AClass name)
    else if bool_decide (name = "_session") then Ret (ASession session)
    else if bool_decide (name = "_data") then Ret (AJson (JDict kwargs))
    else match kwargs !! name with
         | Some v => Ret (AJson v)
         | None => Raise (KeyError name)
         end.
Proof.
  unfold Job_getattr, Job_lookup, Job_init. simpl.
  case_bool_decide as H1.
  { rewrite bool_decide_eq_true_2; [done|]. tauto. }
  destruct (decide (name = "_data")) as [->|Hd].
  { rewrite lookup_insert_eq. reflexivity. }
  rewrite lookup_insert_ne by done.
  destruct (decide (name = "_session")) as [->|Hs].
  { rewrite lookup_insert_eq. reflexivity. }
  rewrite lookup_insert_ne by done. rewrite lookup_empty.
  case_bool_decide as H2.
  { rewrite bool_decide_eq_true_2; [done|]. tauto. }
  rewrite bool_decide_eq_false_2 by tauto.
  rewrite !bool_decide_eq_false_2 by done.
  unfold Job_getattr_hook, Job_lookup. simpl.
  rewrite lookup_insert_eq. simpl. by destruct (kwargs !! name).
Qed.

(** What every name reads as on a handle just built from the fields
    [kwargs]: the names the instance or the class answers ([__dict__],
    [__class__], [_session], [_data], the methods, [__doc__], [__module__])
    never reach the stored mapping, so a server field of such a name cannot
    be read; every other name reads as its stored field, or raises
    [KeyError] when there is none. *)
Theorem Job_init_reads (session : nat) (kwargs : gmap string json)
    (name : string) :
  Job_getattr (Job_init session kwargs) name
  = if bool_decide (name = "__dict__" ∨ name = "__class__"
                    ∨ name ∈ Job_class_attrs)
    then Ret (AClass name)
    else if bool_decide (name = "_session") then Ret (ASession session)
    else if bool_decide (name = "_data") then Ret (AJson (JDict kwargs))
    else match kwargs !! name with
         | Some v => Ret (AJson v)
         | None => Raise (KeyError name)
         end.
Proof. apply Job_init_read_cases. Qed.

(** ** The endpoint of a handle *)

(** What [update] and [delete] do before they can send. *)
Lemma Job_update_unfold (server : list request → request → reply)
    (self : Job) (w : world) :
  log (Job_update server self w).2
  = match Job_url self, Job_session self "get" with
    | Ret url, Ret sid =>
        log w ++ [ {| rq_session := sid; rq_method := GET; rq_url := url;
                      rq_params := ∅; rq_data := ∅; rq_files := ∅;
                      rq_stream := false |} ]
    | _, _ => log w
    end.
Proof.
  unfold Job_update.
  destruct (Job_url self) as [url|e]; [|done].
  destruct (Job_session self "get") as [sid|e]; [|done].
  apply (send_then_log server). intros resp. auto 10 with stateless.
Qed.

Lemma Job_delete_unfold (server : list request → request → reply)
    (self : Job) (w : world) :
  log (Job_delete server self w).2
  = match Job_url self, Job_session self "delete" with
    | Ret url, Ret sid =>
        log w ++ [ {| rq_session := sid; rq_method := DELETE; rq_url := url;
                      rq_params := ∅; rq_data := ∅; rq_files := ∅;
                      rq_stream := false |} ]
    | _, _ => log w
    end.
Proof.
  unfold Job_delete.
  destruct (Job_url self) as [url|e]; [|done].
  destruct (Job_session self "delete") as [sid|e]; [|done].
  apply (send_then_log server). intros resp. auto 10 with stateless.
Qed.

Lemma Job_session_method (self : Job) (sid : nat) (meth meth' : string) :
  Job_session self meth = Ret sid → Job_session self meth' = Ret sid.
Proof.
  unfold Job_session.
  destruct (Job_getattr self "_session") as [[[]| |]|]; try done.
  all: by repeat case_bool_decide.
Qed.

(** [delete] addresses the very endpoint [update] addresses: for every
    handle, either neither call sends anything (the endpoint or the session
    cannot be read off the handle), or [update] sends one GET and [delete]
    one DELETE to the same URL through the same session. *)
Theorem Job_delete_same_endpoint
    (server : list request → request → reply) (self : Job) (w : world) :
  (log (Job_update server self w).2 = log w
   ∧ log (Job_delete server self w).2 = log w)
  ∨ ∃ sid url,
      log (Job_update server self w).2
      = log w ++ [ {| rq_session := sid; rq_method := GET; rq_url := url;
                      rq_params := ∅; rq_data := ∅; rq_files := ∅;
                      rq_stream := false |} ]
      ∧ log (Job_delete server self w).2
        = log w ++ [ {| rq_session := sid; rq_method := DELETE;
                        rq_url := url; rq_params := ∅; rq_data := ∅;
                        rq_files := ∅; rq_stream := false |} ].
Proof.
  rewrite Job_update_unfold, Job_delete_unfold.
  destruct (Job_url self) as [url|e]; [|by left].
  destruct (Job_session self "get") as [sid|e] eqn:Hg.
  - rewrite (Job_session_method _ _ _ "delete" Hg). right. by exists sid, url.
  - destruct (Job_session self "delete") as [sid|e'] eqn:Hd; [|by left].
    by rewrite (Job_session_method _ _ _ "get" Hd) in Hg.
Qed.

Lemma Job_url_raise (server : list request → request → reply)
    (self : Job) (w : world) (e : exn) :
  Job_url self = Raise e →
  Job_update server self w = (Raise e, w)
  ∧ Job_delete server self w = (Raise e, w).
Proof.
  intros H. unfold Job_update, Job_delete, mbind, M_bind, lift.
  by rewrite H.
Qed.

(** The handle does not validate the fields its endpoint needs.  On a handle
    just built from [kwargs], [update] and [delete] fail before sending
    anything, leaving the world as it was: with [KeyError] when [jobid] or
    [hostname] is missing, with [AttributeError] when [jobid] is not a
    string, and with [TypeError] when [hostname] is not a string. *)
Theorem Job_endpoint_fields
    (server : list request → request → reply) (session : nat)
    (kwargs : gmap string json) (w : world) :
  (kwargs !! "jobid" = None →
   Job_update server (Job_init session kwargs) w = (Raise (KeyError "jobid"), w)
   ∧ Job_delete server (Job_init session kwargs) w
     = (Raise (KeyError "jobid"), w))
  ∧ (∀ v, kwargs !! "jobid" = Some v → (∀ s, v ≠ JStr s) →
     Job_update server (Job_init session kwargs) w
     = (Raise (AttributeError "split"), w)
     ∧ Job_delete server (Job_init session kwargs) w
       = (Raise (AttributeError "split"), w))
  ∧ (∀ jid, kwargs !! "jobid" = Some (JStr jid) →
     kwargs !! "hostname" = None →
     Job_update server (Job_init session kwargs) w
     = (Raise (KeyError "hostname"), w)
     ∧ Job_delete server (Job_init session kwargs) w
       = (Raise (KeyError "hostname"), w))
  ∧ (∀ jid v, kwargs !! "jobid" = Some (JStr jid) →
     kwargs !! "hostname" = Some v → (∀ s, v ≠ JStr s) →
     ∃ msg,
       Job_update server (Job_init session kwargs) w = (Raise (TypeError msg), w)
       ∧ Job_delete server (Job_init session kwargs) w
         = (Raise (TypeError msg), w)).
Proof.
  pose proof (Job_init_read_cases session kwargs "jobid") as Hj.
  pose proof (Job_init_read_cases session kwargs "hostname") as Hh.
  change (Job_getattr (Job_init session kwargs) "jobid"
          = match kwargs !! "jobid" with
            | Some v => Ret (AJson v)
            | None => Raise (KeyError "jobid")
            end) in Hj.
  change (Job_getattr (Job_init session kwargs) "hostname"
          = match kwargs !! "hostname" with
            | Some v => Ret (AJson v)
            | None => Raise (KeyError "hostname")
            end) in Hh.
  repeat apply conj.
  - intros Hk. apply Job_url_raise. unfold Job_url. by rewrite Hj, Hk.
  - intros v Hk Hv. apply Job_url_raise. unfold Job_url. rewrite Hj, Hk.
    destruct v as [| | |s| |]; try done. by destruct (Hv s).
  - intros jid Hk Hn. apply Job_url_raise. unfold Job_url.
    by rewrite Hj, Hk, Hh, Hn.
  - intros jid v Hk Hn Hv. eexists. apply Job_url_raise. unfold Job_url.
    rewrite Hj, Hk, Hh, Hn.
    destruct v as [| | |s| |]; try done. by destruct (Hv s).
Qed.

Lemma Job_endpoint_fields_witness :
  state_complete !! "jobid" = None
  ∧ Job_update (always (json_response 200 (JDict ∅)))
      (Job_init 7 state_complete) empty_world
    = (Raise (KeyError "jobid"), empty_world).
Proof.
  split; [reflexivity|].
  exact (proj1 (proj1 (Job_endpoint_fields
                         (always (json_response 200 (JDict ∅)))
                         7 state_complete empty_world) eq_refl)).
Defined.

(** ** Refreshing twice *)

Lemma Job_eq (j1 j2 : Job) :
  (∀ k, __dict__ j1 !! k = __dict__ j2 !! k) → j1 = j2.
Proof.
  destruct j1 as [d1], j2 as [d2]. simpl. intros H. f_equal. by apply map_eq.
Qed.

(** Absorbing two payloads one after the other is absorbing their union in
    which the later payload wins; in particular absorbing the same payload a
    second time changes nothing.  (Payloads without a [__dict__] field.) *)
Theorem Job_absorb_compose (self s1 s2 : Job) (m1 m2 : gmap string json) :
  Job_absorb self (JDict m1) = Ret s1 →
  Job_absorb s1 (JDict m2) = Ret s2 →
  m1 !! "__dict__" = None →
  m2 !! "__dict__" = None →
  Job_absorb self (JDict (m2 ∪ m1)) = Ret s2
  ∧ Job_absorb s1 (JDict m1) = Ret s1.
Proof.
  intros H1 H2 Hd1 Hd2.
  destruct (Job_absorb_dict _ _ _ H1 Hd1) as [Hc1 L1].
  destruct (Job_absorb_dict _ _ _ H2 Hd2) as [Hc2 L2].
  split.
  - assert (Hd : (m2 ∪ m1) !! "__dict__" = None)
      by (apply lookup_union_None; done).
    assert (Hc : (m2 ∪ m1) !! "__class__" = None)
      by (apply lookup_union_None; done).
    destruct (Job_setattrs_total (map_to_list (m2 ∪ m1)) self) as [s3 H3].
    { intros v Hin%elem_of_map_to_list. congruence. }
    { intros v Hin%elem_of_map_to_list. congruence. }
    change (Job_absorb self (JDict (m2 ∪ m1)) = Ret s3) in H3.
    rewrite H3. f_equal. apply Job_eq. intros k.
    destruct (Job_absorb_dict _ _ _ H3 Hd) as [_ L3].
    rewrite L3, L2, L1, lookup_union.
    destruct (m2 !! k), (m1 !! k); done.
  - destruct (Job_setattrs_total (map_to_list m1) s1) as [s3 H3].
    { intros v Hin%elem_of_map_to_list. congruence. }
    { intros v Hin%elem_of_map_to_list. congruence. }
    change (Job_absorb s1 (JDict m1) = Ret s3) in H3.
    rewrite H3. f_equal. apply Job_eq. intros k.
    destruct (Job_absorb_dict _ _ _ H3 Hd1) as [_ L3].
    rewrite L3, L1. by destruct (m1 !! k).
Qed.

Lemma Job_absorb_compose_witness :
  Job_absorb (Job_init 7 job_12345) (JDict state_complete)
  = Ret job_12345_complete
  ∧ Job_absorb job_12345_complete (JDict {["state" := JStr "Cancelled"]})
    = Ret {| __dict__ := <["state" := AJson (JStr "Cancelled")]>
                           (__dict__ (Job_init 7 job_12345)) |}
  ∧ Job_absorb (Job_init 7 job_12345)
      (JDict ({["state" := JStr "Cancelled"]} ∪ state_complete))
    = Ret {| __dict__ := <["state" := AJson (JStr "Cancelled")]>
                           (__dict__ (Job_init 7 job_12345)) |}.
Proof.
  assert (H1 : Job_absorb (Job_init 7 job_12345) (JDict state_complete)
               = Ret job_12345_complete) by (vm_compute; reflexivity).
  assert (H2 : Job_absorb job_12345_complete
                 (JDict {["state" := JStr "Cancelled"]})
               = Ret {| __dict__ := <["state" := AJson (JStr "Cancelled")]>
                                      (__dict__ (Job_init 7 job_12345)) |})
    by (vm_compute; reflexivity).
  split; [exact H1|]. split; [exact H2|].
  exact (proj1 (Job_absorb_compose _ _ _ _ _ H1 H2 eq_refl eq_refl)).
Defined.

(** A refresh whose payload has a field named [_session] disables the
    handle: the field takes the place of the session object, and every later
    [update] or [delete] fails without sending anything. *)
Theorem Job_session_field_disables
    (server : list request → request → reply) (self self' : Job)
    (m : gmap string json) (w0 w1 w : world) :
  Job_update server self w0 = (Ret (JDict m, self'), w1) →
  m !! "__dict__" = None →
  is_Some (m !! "_session") →
  (∃ e, Job_update server self' w = (Raise e, w))
  ∧ (∃ e, Job_delete server self' w = (Raise e, w)).
Proof.
  intros Hup Hd [v Hv].
  apply Job_update_Ret in Hup as (_ & _ & _ & _ & _ & _ & _ & Ha & _).
  destruct (Job_absorb_dict _ _ _ Ha Hd) as [_ L].
  assert (Job_getattr self' "_session" = Ret (AJson v)) as Hs.
  { unfold Job_getattr.
    rewrite (Job_lookup_instance self' "_session" (AJson v)); [done..|].
    by rewrite L, Hv. }
  assert (∀ meth, ∃ e, Job_session self' meth = Raise e) as Hm.
  { intros meth. unfold Job_session. rewrite Hs.
    destruct v; try by eexists. case_bool_decide; by eexists. }
  destruct (Job_url self') as [url|e] eqn:Hu.
  - destruct (Hm "get") as [e1 He1]. destruct (Hm "delete") as [e2 He2].
    split; [exists e1|exists e2];
      unfold Job_update, Job_delete, mbind, M_bind, lift;
      by rewrite Hu, ?He1, ?He2.
  - split; exists e; by apply (Job_url_raise server).
Qed.

Lemma Job_session_field_disables_witness :
  Job_update (always (json_response 200 (JDict session_only)))
    (Job_init 7 job_12345) empty_world
  = (Ret (JDict session_only,
          {| __dict__ := <["_session" := AJson (JStr "expired")]>
                           (__dict__ (Job_init 7 job_12345)) |}),
     world_after_update)
  ∧ ∃ e, Job_update (always (json_response 200 (JDict session_only)))
           {| __dict__ := <["_session" := AJson (JStr "expired")]>
                            (__dict__ (Job_init 7 job_12345)) |}
           world_after_update
         = (Raise e, world_after_update).
Proof.
  assert (H : Job_update (always (json_response 200 (JDict session_only)))
                (Job_init 7 job_12345) empty_world
              = (Ret (JDict session_only,
                      {| __dict__ := <["_session" := AJson (JStr "expired")]>
                                       (__dict__ (Job_init 7 job_12345)) |}),
                 world_after_update)) by (vm_compute; reflexivity).
  split; [exact H|].
  exact (proj1 (Job_session_field_disables _ _ _ _ _ _ world_after_update
                  H eq_refl (mk_is_Some _ _ eq_refl))).
Defined.

(** ** Results that are the decoded body *)

Lemma exchange_passes_body {A : Type}
    (server : list request → request → reply)
    (rq : request) (k : response → M A) (wrap : json → A) :
  (∀ resp, keeps_log (k resp)) →
  (∀ resp w j, json_body resp = Some j → k resp w = (Ret (wrap j), w)) →
  passes_body server
    (send server rq ≫= λ resp, raise_for_status resp ≫= λ _, k resp) wrap.
Proof.
  intros Hk Hb w rq' resp j Hlog Hsrv Hst Hj.
  apply exchange_logged in Hlog as ->; [|done].
  unfold mbind, M_bind, send, raise_for_status, logged.
  rewrite Hsrv, Hst. simpl. by rewrite (Hb _ _ j).
Qed.

(** [list], [run_command], [queue_submit] and [status] perform no check of
    what the server answered: on a reply that is no error, the result is the
    decoded body itself, whatever JSON value it is. *)
Theorem NEWT_methods_pass_body
    (server : list request → request → reply)
    (self : NEWT) (machine path command : string)
    (system jobfile : option string) (loginenv : bool) (script : jobscript) :
  machine ∈ NEWT_MACHINES →
  passes_body server (NEWT_list server self machine path) Value
  ∧ passes_body server
      (NEWT_run_command server self machine command loginenv) Value
  ∧ passes_body server
      (NEWT_queue_submit server self machine script jobfile) Value
  ∧ passes_body server (NEWT_status server self system) id.
Proof.
  intros Hm.
  unfold NEWT_status, NEWT_list, NEWT_run_command, NEWT_queue_submit.
  rewrite (valid_machine_guard _ Hm).
  destruct system as [sys|]; [destruct (Py.truthy sys)|].
  all: repeat apply conj; unfold session_get, session_post.
  all: match goal with
       | |- passes_body _ (send _ ?rq ≫= _) _ =>
           apply (exchange_passes_body server rq);
           [ solve_keeps_log
           | intros resp w j Hj; unfold mbind, M_bind, resp_json;
             by rewrite Hj ]
       end.
Qed.

Lemma NEWT_methods_pass_body_witness :
  ("edison" ∈ NEWT_MACHINES)
  ∧ NEWT_list (always (json_response 200 (JStr "not a listing"))) a_client
      "edison" "/tmp" empty_world
    = (Ret (Value (JStr "not a listing")),
       logged {| rq_session := 0; rq_method := GET;
                 rq_url := "https://newt.nersc.gov/newt/file/edison/tmp";
                 rq_params := ∅; rq_data := ∅; rq_files := ∅;
                 rq_stream := false |} empty_world).
Proof.
  assert (H : "edison" ∈ NEWT_MACHINES) by compute_done.
  split; [exact H|].
  exact (proj1 (NEWT_methods_pass_body
                  (always (json_response 200 (JStr "not a listing")))
                  a_client "edison" "/tmp" "ls" None None true
                  (ScriptText "") H)
           empty_world _ (json_response 200 (JStr "not a listing"))
           (JStr "not a listing") eq_refl eq_refl eq_refl eq_refl).
Defined.

(** ** Queue listings: malformed entries, and the handles' session *)

Lemma Job_new_TypeError (session : nat) (entry : json) (e : exn) :
  Job_new session entry = Raise e → ∃ msg, e = TypeError msg.
Proof.
  unfold Job_new. destruct entry; try (intros ?; simplify_eq; by eexists).
  case_bool_decide; intros ?; simplify_eq. by eexists.
Qed.

Lemma Job_new_bad (session : nat) (entry : json) :
  ¬ Job_entry_ok entry → ∃ msg, Job_new session entry = Raise (TypeError msg).
Proof.
  intros Hbad. unfold Job_new. destruct entry as [| | | | |m]; try by eexists.
  case_bool_decide as Hk; [by eexists|].
  destruct Hbad. exists m. split; [done|].
  destruct (m !! "self") eqn:E1.
  { destruct Hk. left. by eexists. }
  destruct (m !! "session") eqn:E2; [|done].
  destruct Hk. right. by eexists.
Qed.

Lemma Job_news_bad (session : nat) (entries : list json) :
  Exists (λ entry, ¬ Job_entry_ok entry) entries →
  ∃ msg, Job_news session entries = Raise (TypeError msg).
Proof.
  induction 1 as [entry entries Hbad|entry entries _ [msg IH]]; simpl.
  - destruct (Job_new_bad session entry Hbad) as [msg ->]. by eexists.
  - destruct (Job_new session entry) as [j|e] eqn:E.
    + rewrite IH. by eexists.
    + destruct (Job_new_TypeError _ _ _ E) as [msg' ->]. by eexists.
Qed.

Lemma Job_news_Ret (session : nat) (entries : list json) (jobs : list Job) :
  Job_news session entries = Ret jobs →
  Forall (λ j, ∃ m, j = Job_init session m) jobs.
Proof.
  revert jobs. induction entries as [|entry entries IH]; intros jobs; simpl.
  - intros ?; simplify_eq. constructor.
  - destruct (Job_new session entry) as [j|] eqn:E; [|done].
    destruct (Job_news session entries) as [js|]; [|done].
    intros ?; simplify_eq. constructor; [|by apply IH].
    unfold Job_new in E. destruct entry; try done.
    case_bool_decide; simplify_eq. by eexists.
Qed.

(** A queue listing is all or nothing: when one entry of the decoded
    sequence is not an object, or is an object with a field named [self] or
    [session], [queue_stat] raises [TypeError] and returns no handle at all,
    not even for the well-formed entries. *)
Theorem NEWT_queue_stat_all_or_nothing
    (server : list request → request → reply) (self : NEWT)
    (machine : string) (index limit : Z) (kwargs : gmap string json)
    (w : world) (resp : response) (entries : list json) :
  machine ∈ NEWT_MACHINES →
  server (log w)
    {| rq_session := _session self; rq_method := GET;
       rq_url := NEWT_BASE_URL +:+ "/queue/" +:+ machine;
       rq_params := kwargs ∪ <["index" := JNum index]>
                                (<["limit" := JNum limit]> ∅);
       rq_data := ∅; rq_files := ∅; rq_stream := false |}
  = Reply resp →
  http_error (status_code resp) = false →
  json_body resp = Some (JList entries) →
  Exists (λ entry, ¬ Job_entry_ok entry) entries →
  ∃ msg,
    (NEWT_queue_stat server self machine index limit kwargs w).1
    = Raise (TypeError msg).
Proof.
  intros Hm Hsrv Hst Hj Hbad.
  destruct (Job_news_bad (_session self) entries Hbad) as [msg Hn].
  exists msg. unfold NEWT_queue_stat. rewrite (valid_machine_guard _ Hm).
  unfold mbind, M_bind, session_get, send. rewrite Hsrv.
  unfold raise_for_status, resp_json. rewrite Hst, Hj. simpl.
  unfold lift. by rewrite Hn.
Qed.

Lemma NEWT_queue_stat_all_or_nothing_witness :
  ("edison" ∈ NEWT_MACHINES)
  ∧ Exists (λ entry, ¬ Job_entry_ok entry) [JDict job_12345; JNull]
  ∧ ∃ msg,
      (NEWT_queue_stat
         (always (json_response 200 (JList [JDict job_12345; JNull])))
         a_client "edison" 0 10 ∅ empty_world).1
      = Raise (TypeError msg).
Proof.
  assert (H : "edison" ∈ NEWT_MACHINES) by compute_done.
  assert (Hbad : Exists (λ entry, ¬ Job_entry_ok entry)
                   [JDict job_12345; JNull]).
  { apply Exists_cons_tl, Exists_cons_hd. by intros (m & ? & _). }
  split; [exact H|]. split; [exact Hbad|].
  exact (NEWT_queue_stat_all_or_nothing
           (always (json_response 200 (JList [JDict job_12345; JNull])))
           a_client "edison" 0 10 ∅ empty_world
           (json_response 200 (JList [JDict job_12345; JNull]))
           [JDict job_12345; JNull] H eq_refl eq_refl eq_refl Hbad).
Defined.

Lemma NEWT_queue_stat_Ret (server : list request → request → reply)
    (self : NEWT) (machine : string) (index limit : Z)
    (kwargs : gmap string json) (w : world) (jobs : list Job) :
  (NEWT_queue_stat server self machine index limit kwargs w).1
  = Ret (Value jobs) →
  Forall (λ j, ∃ m, j = Job_init (_session self) m) jobs.
Proof.
  unfold NEWT_queue_stat. case_bool_decide; [done|].
  unfold mbind, M_bind, session_get, send, raise_for_status, resp_json, lift.
  destruct (server (log w) _) as [resp|]; [|done].
  destruct (http_error (status_code resp)); [done|].
  destruct (json_body resp) as [j|]; [|done]. simpl.
  destruct (json_iter j) as [entries|]; [|done].
  destruct (Job_news (_session self) entries) as [js|] eqn:E; [|done].
  simpl. intros ?; simplify_eq. by eapply Job_news_Ret.
Qed.

(** Handles keep working through the client that listed them: for every
    handle [queue_stat] has returned, whatever [update] and [delete] send
    goes through the session of that client, and to one and the same URL. *)
Theorem NEWT_queue_stat_handles_share_session
    (server : list request → request → reply) (self : NEWT)
    (machine : string) (index limit : Z) (kwargs : gmap string json)
    (w w' : world) (jobs : list Job) (j : Job) :
  (NEWT_queue_stat server self machine index limit kwargs w).1
  = Ret (Value jobs) →
  j ∈ jobs →
  (log (Job_update server j w').2 = log w'
   ∧ log (Job_delete server j w').2 = log w')
  ∨ ∃ url,
      log (Job_update server j w').2
      = log w' ++
        [ {| rq_session := _session self; rq_method := GET; rq_url := url;
             rq_params := ∅; rq_data := ∅; rq_files := ∅;
             rq_stream := false |} ]
      ∧ log (Job_delete server j w').2
        = log w' ++
          [ {| rq_session := _session self; rq_method := DELETE;
               rq_url := url; rq_params := ∅; rq_data := ∅; rq_files := ∅;
               rq_stream := false |} ].
Proof.
  intros Hq Hj. apply NEWT_queue_stat_Ret in Hq.
  rewrite Forall_forall in Hq. destruct (Hq j Hj) as [m ->].
  rewrite Job_update_unfold, Job_delete_unfold.
  assert (∀ meth, Job_session (Job_init (_session self) m) meth
                  = Ret (_session self)) as Hs.
  { intros meth. unfold Job_session.
    by rewrite (Job_init_read_cases (_session self) m "_session"). }
  rewrite !Hs. destruct (Job_url _) as [url|]; [|by left].
  right. by exists url.
Qed.

Lemma NEWT_queue_stat_handles_share_session_witness :
  (NEWT_queue_stat (always (json_response 200 (JList [JDict job_12345])))
     a_client "edison" 0 10 ∅ empty_world).1
  = Ret (Value [Job_init 0 job_12345])
  ∧ Job_init 0 job_12345 ∈ [Job_init 0 job_12345]
  ∧ ((log (Job_update (always (json_response 200 (JList [JDict job_12345])))
             (Job_init 0 job_12345) empty_world).2 = log empty_world
      ∧ log (Job_delete (always (json_response 200 (JList [JDict job_12345])))
               (Job_init 0 job_12345) empty_world).2 = log empty_world)
     ∨ ∃ url,
         log (Job_update (always (json_response 200 (JList [JDict job_12345])))
                (Job_init 0 job_12345) empty_world).2
         = log empty_world ++
           [ {| rq_session := 0; rq_method := GET; rq_url := url;
                rq_params := ∅; rq_data := ∅; rq_files := ∅;
                rq_stream := false |} ]
         ∧ log (Job_delete
                  (always (json_response 200 (JList [JDict job_12345])))
                  (Job_init 0 job_12345) empty_world).2
           = log empty_world ++
             [ {| rq_session := 0; rq_method := DELETE; rq_url := url;
                  rq_params := ∅; rq_data := ∅; rq_files := ∅;
                  rq_stream := false |} ]).
Proof.
  assert (H : (NEWT_queue_stat
                 (always (json_response 200 (JList [JDict job_12345])))
                 a_client "edison" 0 10 ∅ empty_world).1
              = Ret (Value [Job_init 0 job_12345])) by reflexivity.
  assert (Hin : Job_init 0 job_12345 ∈ [Job_init 0 job_12345])
    by apply list_elem_of_here.
  split; [exact H|]. split; [exact Hin|].
  exact (NEWT_queue_stat_handles_share_session
           (always (json_response 200 (JList [JDict job_12345])))
           a_client "edison" 0 10 ∅ empty_world empty_world
           [Job_init 0 job_12345] (Job_init 0 job_12345) H Hin).
Defined.

(** ** The handle's own exchanges *)

Lemma log_not_extended (w : world) (rq : request) : log w ≠ log w ++ [rq].
Proof.
  intros H. apply (f_equal List.length) in H.
  rewrite length_app in H. simpl in H. lia.
Qed.

Lemma lift_Ret_bind {A B : Type} (a : A) (k : A → M B) :
  lift (Ret a) ≫= k = k a.
Proof. reflexivity. Qed.

(** [update] and [delete] treat the reply as the client's methods do: no
    reply raises the connection error, a 4xx or 5xx status raises the HTTP
    error whatever the body, a body that does not decode raises the decoding
    error, and in each case only the request log has changed; [delete]
    returns the decoded body of a reply that is no error as it is. *)
Theorem Job_methods_checked
    (server : list request → request → reply) (self : Job) :
  transport_checked server (Job_update server self)
  ∧ transport_checked server (Job_delete server self)
  ∧ decoding_checked server (Job_update server self)
  ∧ decoding_checked server (Job_delete server self)
  ∧ passes_body server (Job_delete server self) id.
Proof.
  unfold Job_update, Job_delete.
  destruct (Job_url self) as [url|e].
  2:{ repeat apply conj; intros w rq; intros;
        by destruct (log_not_extended w rq). }
  destruct (Job_session self "get") as [sid|e1];
    destruct (Job_session self "delete") as [sid'|e2].
  all: repeat apply conj.
  all: try (intros w rq; intros; by destruct (log_not_extended w rq)).
  all: rewrite ?lift_Ret_bind; unfold session_get, session_delete.
  all: try match goal with
       | |- transport_checked _ _ =>
           intros w rq;
           match goal with
           | |- context [send _ ?rq0] =>
               refine (exchange_transport_checked server rq0 _ _ w rq);
               solve_keeps_log
           end
       | |- decoding_checked _ _ =>
           intros w rq;
           match goal with
           | |- context [send _ ?rq0] =>
               refine (exchange_decoding_checked server rq0 _ _ _ w rq);
               [ solve_keeps_log
               | intros resp w0 Hj; unfold mbind, M_bind, resp_json;
                 by rewrite Hj ]
           end
       | |- passes_body _ _ _ =>
           intros w rq;
           match goal with
           | |- context [send _ ?rq0] =>
               refine (exchange_passes_body server rq0 _ id _ _ w rq);
               [ solve_keeps_log
               | intros resp w0 j Hj; unfold mbind, M_bind, resp_json;
                 by rewrite Hj ]
           end
       end.
Qed.

(** ** The query of a queue listing *)

(** On a valid machine, [queue_stat] sends one GET to [/queue/<machine>]
    whose query carries [index], [limit] and every additional filter exactly
    as given, and nothing else.  (Python binds the names [index] and [limit]
    to the parameters, so they are never among the filters.) *)
Theorem NEWT_queue_stat_request
    (server : list request → request → reply) (self : NEWT)
    (machine : string) (index limit : Z) (kwargs : gmap string json)
    (w : world) :
  machine ∈ NEWT_MACHINES →
  kwargs !! "index" = None →
  kwargs !! "limit" = None →
  ∃ params : gmap string json,
    log (NEWT_queue_stat server self machine index limit kwargs w).2
    = log w ++
      [ {| rq_session := _session self; rq_method := GET;
           rq_url := NEWT_BASE_URL +:+ "/queue/" +:+ machine;
           rq_params := params; rq_data := ∅; rq_files := ∅;
           rq_stream := false |} ]
    ∧ params !! "index" = Some (JNum index)
    ∧ params !! "limit" = Some (JNum limit)
    ∧ ∀ k, k ≠ "index" → k ≠ "limit" → params !! k = kwargs !! k.
Proof.
  intros Hm Hi Hl.
  exists (kwargs ∪ <["index" := JNum index]> (<["limit" := JNum limit]> ∅)).
  split; [|split; [|split]].
  - unfold NEWT_queue_stat. rewrite (valid_machine_guard _ Hm).
    apply send_then_log. intros resp. auto 12 with stateless.
  - by rewrite lookup_union_r.
  - by rewrite lookup_union_r.
  - intros k Hk1 Hk2. rewrite lookup_union.
    rewrite !lookup_insert_ne by done. rewrite lookup_empty.
    by destruct (kwargs !! k).
Qed.

Lemma NEWT_queue_stat_request_witness :
  ("hopper" ∈ NEWT_MACHINES)
  ∧ ({["queue" := JStr "debug"]} : gmap string json) !! "index" = None
  ∧ ({["queue" := JStr "debug"]} : gmap string json) !! "limit" = None
  ∧ ∃ params : gmap string json,
      log (NEWT_queue_stat (always (json_response 200 (JList []))) a_client
             "hopper" 5 20 {["queue" := JStr "debug"]} empty_world).2
      = log empty_world ++
        [ {| rq_session := 0; rq_method := GET;
             rq_url := NEWT_BASE_URL +:+ "/queue/" +:+ "hopper";
             rq_params := params; rq_data := ∅; rq_files := ∅;
             rq_stream := false |} ]
      ∧ params !! "index" = Some (JNum 5)
      ∧ params !! "limit" = Some (JNum 20)
      ∧ ∀ k, k ≠ "index" → k ≠ "limit" →
             params !! k
             = ({["queue" := JStr "debug"]} : gmap string json) !! k.
Proof.
  assert (H : "hopper" ∈ NEWT_MACHINES) by compute_done.
  split; [exact H|]. split; [reflexivity|]. split; [reflexivity|].
  exact (NEWT_queue_stat_request (always (json_response 200 (JList [])))
           a_client "hopper" 5 20 {["queue" := JStr "debug"]} empty_world
           H eq_refl eq_refl).
Defined.

(** ** Refresh payloads that are not objects *)

(** [update] does not require the decoded body to be an object.  A
    successful refresh whose payload is not an object has changed nothing on
    the handle, and that payload was the empty list or the empty string;
    every other non-object body makes the call fail. *)
Theorem Job_update_non_object
    (server : list request → request → reply) (self self' : Job)
    (w w' : world) (payload : json) :
  Job_update server self w = (Ret (payload, self'), w') →
  (∀ m, payload ≠ JDict m) →
  self' = self ∧ (payload = JList [] ∨ payload = JStr "").
Proof.
  intros H Hno.
  apply Job_update_Ret in H as (_ & _ & _ & _ & _ & _ & _ & Ha & _).
  destruct payload as [| | |s|l|m]; simpl in Ha; try done.
  - unfold Py.truthy in Ha. case_bool_decide; simplify_eq/=.
    split; [done|by right].
  - destruct l as [|x l]; [simplify_eq; split; [done|by left]|].
    destruct x; try done; by case_bool_decide.
  - by destruct (Hno m).
Qed.

Lemma Job_update_non_object_witness :
  Job_update (always (json_response 200 (JList [])))
    (Job_init 7 job_12345) empty_world
  = (Ret (JList [], Job_init 7 job_12345), world_after_update)
  ∧ (∀ m, JList [] ≠ JDict m)
  ∧ Job_init 7 job_12345 = Job_init 7 job_12345
  ∧ (JList [] = JList [] ∨ JList [] = JStr "").
Proof.
  assert (H : Job_update (always (json_response 200 (JList [])))
                (Job_init 7 job_12345) empty_world
              = (Ret (JList [], Job_init 7 job_12345), world_after_update))
    by (vm_compute; reflexivity).
  assert (Hno : ∀ m, JList [] ≠ JDict m) by discriminate.
  split; [exact H|]. split; [exact Hno|].
  exact (Job_update_non_object _ _ _ _ _ _ H Hno).
Defined.

(** ** A client that exists has been vouched for *)

(** When the constructor returns a client, exactly one request was sent, the
    login through the client's newly created session; its reply was no
    error and decoded to an object whose auth flag is true and whose
    [username] is the user name given. *)
Theorem NEWT_init_authenticated
    (server : list request → request → reply)
    (username password : string) (w : world) (self : NEWT) :
  (NEWT_init server username password w).1 = Ret self →
  _session self = next_session w
  ∧ ∃ (resp : response) (m : gmap string json) (auth : json),
      log (NEWT_init server username password w).2
      = log w ++
        [ {| rq_session := _session self; rq_method := POST;
             rq_url := NEWT_BASE_URL +:+ "/login"; rq_params := ∅;
             rq_data := <["username" := JStr username]>
                          (<["password" := JStr password]> ∅);
             rq_files := ∅; rq_stream := false |} ]
      ∧ server (log w)
          {| rq_session := _session self; rq_method := POST;
             rq_url := NEWT_BASE_URL +:+ "/login"; rq_params := ∅;
             rq_data := <["username" := JStr username]>
                          (<["password" := JStr password]> ∅);
             rq_files := ∅; rq_stream := false |}
        = Reply resp
      ∧ http_error (status_code resp) = false
      ∧ json_body resp = Some (JDict m)
      ∧ m !! "auth" = Some auth
      ∧ json_truthy auth = true
      ∧ m !! "username" = Some (JStr username).
Proof.
  unfold NEWT_init, new_session, NEWT_login.
  unfold mbind, M_bind, session_post, send, raise_for_status, resp_json, lift.
  simpl.
  destruct (server (log w) _) as [resp|] eqn:Hsrv; [|done]. simpl.
  destruct (http_error (status_code resp)) eqn:Hst; [done|]. simpl.
  destruct (json_body resp) as [body|] eqn:Hj; [|done]. simpl.
  destruct (getitem body "auth") as [auth|] eqn:Ha; [|done]. simpl.
  destruct (json_truthy auth) eqn:Ht; [|done]. simpl.
  destruct (getitem body "username") as [user|] eqn:Hu; [|done]. simpl.
  destruct (json_eq_str user username) eqn:He; [|done]. simpl.
  intros ?; simplify_eq. split; [done|].
  destruct body as [| | | | |m]; try done. simpl in Ha, Hu.
  destruct (m !! "auth") as [a|] eqn:Hma; [|done].
  destruct (m !! "username") as [u|] eqn:Hmu; [|done]. simplify_eq.
  destruct user as [| | |s| |]; try done.
  apply bool_decide_eq_true_1 in He as ->.
  exists resp, m, auth. simpl. by rewrite Hsrv.
Qed.

Lemma NEWT_init_authenticated_witness :
  (NEWT_init (always (json_response 200 (login_body true "alice")))
     "alice" "secret" empty_world).1
  = Ret a_client
  ∧ _session a_client = next_session empty_world.
Proof.
  assert (H : (NEWT_init (always (json_response 200 (login_body true "alice")))
                 "alice" "secret" empty_world).1 = Ret a_client)
    by reflexivity.
  split; [exact H|].
  exact (proj1 (NEWT_init_authenticated _ _ _ _ _ H)).
Defined.

(** ** What a download stores depends only on the bytes *)

(** The file a successful default-path [download] leaves holds the
    concatenation of all the chunks of the body; so two replies whose chunks
    concatenate to the same bytes leave the same local files, however the
    stream was cut into chunks and wherever empty chunks occurred. *)
Theorem NEWT_download_chunking
    (server server' : list request → request → reply)
    (writable : string → bool) (self : NEWT) (machine remote_path : string)
    (w : world) (resp resp' : response) :
  machine ∈ NEWT_MACHINES →
  server (log w)
    {| rq_session := _session self; rq_method := GET;
       rq_url := NEWT_BASE_URL +:+ "/file/" +:+ machine +:+ remote_path;
       rq_params := {["view" := JStr "read"]}; rq_data := ∅; rq_files := ∅;
       rq_stream := true |}
  = Reply resp →
  server' (log w)
    {| rq_session := _session self; rq_method := GET;
       rq_url := NEWT_BASE_URL +:+ "/file/" +:+ machine +:+ remote_path;
       rq_params := {["view" := JStr "read"]}; rq_data := ∅; rq_files := ∅;
       rq_stream := true |}
  = Reply resp' →
  http_error (status_code resp) = false →
  http_error (status_code resp') = false →
  writable (Py.last_item (Py.split "/" remote_path)) = true →
  Py.concat (chunks resp) = Py.concat (chunks resp') →
  files (NEWT_download server writable self machine remote_path None w).2
  = <[Py.last_item (Py.split "/" remote_path) := Py.concat (chunks resp)]>
      (files w)
  ∧ NEWT_download server writable self machine remote_path None w
    = NEWT_download server' writable self machine remote_path None w.
Proof.
  intros Hm Hsrv Hsrv' Hst Hst' Hw Hc.
  unfold NEWT_download. rewrite (valid_machine_guard _ Hm).
  unfold mbind, M_bind, session_get, send. rewrite Hsrv, Hsrv'.
  unfold raise_for_status. rewrite Hst, Hst'. simpl.
  unfold open_wb. rewrite Hw. simpl.
  rewrite !write_chunks_appends. simpl.
  rewrite !concat_nonempty_chunks. by rewrite Hc.
Qed.

Lemma NEWT_download_chunking_witness :
  ("hopper" ∈ NEWT_MACHINES)
  ∧ Py.concat ["#!/bin"; ""; "/sh"] = Py.concat ["#!"; "/bin/sh"]
  ∧ NEWT_download (always (stream_response 200 ["#!/bin"; ""; "/sh"]))
      all_writable a_client "hopper" "/home/u/run.sh" None world_with_run_sh
    = NEWT_download (always (stream_response 200 ["#!"; "/bin/sh"]))
        all_writable a_client "hopper" "/home/u/run.sh" None
        world_with_run_sh.
Proof.
  assert (H : "hopper" ∈ NEWT_MACHINES) by compute_done.
  split; [exact H|]. split; [reflexivity|].
  exact (proj2 (NEWT_download_chunking
                  (always (stream_response 200 ["#!/bin"; ""; "/sh"]))
                  (always (stream_response 200 ["#!"; "/bin/sh"]))
                  all_writable a_client "hopper" "/home/u/run.sh"
                  world_with_run_sh
                  (stream_response 200 ["#!/bin"; ""; "/sh"])
                  (stream_response 200 ["#!"; "/bin/sh"])
                  H eq_refl eq_refl eq_refl eq_refl eq_refl eq_refl)).
Defined.

(** ** A refresh can re-target the handle *)

(** The endpoint is read from the handle as it is now, not from what the
    listing stored: after a successful refresh whose payload reports a
    [jobid] and a [hostname] (and names neither [__dict__] nor [_session]),
    the next [update] goes to the endpoint of the reported host and job. *)
Theorem Job_update_retargets
    (server : list request → request → reply) (self self' : Job)
    (m : gmap string json) (w0 w1 w : world) (sid : nat) (jid h : string) :
  Job_update server self w0 = (Ret (JDict m, self'), w1) →
  Job_getattr self "_session" = Ret (ASession sid) →
  m !! "__dict__" = None →
  m !! "_session" = None →
  m !! "jobid" = Some (JStr jid) →
  m !! "hostname" = Some (JStr h) →
  log (Job_update server self' w).2
  = log w ++
    [ {| rq_session := sid; rq_method := GET;
         rq_url := NEWT_BASE_URL +:+ "/queue/" +:+ h +:+ "/"
                   +:+ Py.first_item (Py.split "." jid);
         rq_params := ∅; rq_data := ∅; rq_files := ∅; rq_stream := false |} ].
Proof.
  intros Hup Hs Hd Hsess Hj Hh.
  apply Job_update_Ret in Hup as (_ & _ & _ & _ & _ & _ & _ & Ha & _).
  destruct (Job_absorb_dict _ _ _ Ha Hd) as [_ L].
  assert (Hread : ∀ k v, k ≠ "__dict__" → k ≠ "__class__" →
            m !! k = Some v → Job_getattr self' k = Ret (AJson v)).
  { intros k v H1 H2 Hk. unfold Job_getattr.
    rewrite (Job_lookup_instance self' k (AJson v)); [done..|].
    by rewrite L, Hk. }
  assert (Job_getattr self' "_session" = Ret (ASession sid)) as Hs'.
  { assert (__dict__ self !! "_session" = Some (ASession sid)) as Hi.
    { revert Hs. unfold Job_getattr, Job_getattr_hook, Job_lookup. simpl.
      destruct (__dict__ self !! "_session") as [a|]; [congruence|].
      destruct (__dict__ self !! "_data") as [[d| |]|]; try done.
      by destruct (getitem d "_session"). }
    unfold Job_getattr.
    rewrite (Job_lookup_instance self' "_session" (ASession sid)); [done..|].
    by rewrite L, Hsess. }
  rewrite Job_update_unfold.
  rewrite (Job_url_fields self' jid h); [|by apply Hread..].
  unfold Job_session. by rewrite Hs'.
Qed.

Lemma Job_update_retargets_witness :
  Job_update (always (json_response 200 (JDict moved_job)))
    (Job_init 7 job_12345) empty_world
  = (Ret (JDict moved_job, job_12345_moved), world_after_update)
  ∧ Job_getattr (Job_init 7 job_12345) "_session" = Ret (ASession 7)
  ∧ log (Job_update (always (json_response 200 (JDict moved_job)))
           job_12345_moved empty_world).2
    = [ {| rq_session := 7; rq_method := GET;
           rq_url := "https://newt.nersc.gov/newt/queue/carver/777";
           rq_params := ∅; rq_data := ∅; rq_files := ∅;
           rq_stream := false |} ].
Proof.
  assert (H : Job_update (always (json_response 200 (JDict moved_job)))
                (Job_init 7 job_12345) empty_world
              = (Ret (JDict moved_job, job_12345_moved), world_after_update))
    by (vm_compute; reflexivity).
  split; [exact H|]. split; [reflexivity|].
  exact (Job_update_retargets _ _ _ _ _ _ empty_world 7 "777.other" "carver"
           H eq_refl eq_refl eq_refl eq_refl eq_refl).
Defined.
